(** * GitHub Explorer: the search-and-selection controller of [Welcome]

    A shallow embedding of the state logic of the [Welcome] component
    (app/welcome/welcome.tsx): the twelve [useState] cells, the two
    asynchronous operations [searchUsers] and [fetchUserRepositories], and
    the event handlers that call them.

    Modelling choices.
    - A JavaScript string is the list of its UTF-16 code units.
    - [number] values the controller computes with (pages, counts) are
      integers ([Z]); the one place where the source can produce [NaN]
      ([undefined / 5]) is modelled with [option Z], [None] being [NaN].
    - The React state is a record; a setter overwrites one field.  Every
      setter call of the source passes a value, never an updater function,
      so the state after a handler is the sequence of its writes.
    - An [async] function is cut at its [await fetch(...)]: the part before
      runs when the handler is called and leaves a pending request (or ends
      the call, when it throws before [fetch]), the part after runs when the
      request settles.  [await response.json()] does not
      touch the state between the two awaits, so both are one step.
    - A parsed search body is a JSON object whose [items] and [total_count]
      may each be absent ([undefined] when read); when present they are an
      array of users and an integer.
    - The two [useEffect] hooks read and write only [isDarkMode],
      [localStorage] and the document's class list; they are modelled
      apart from the requests, over a record of what they see of the
      browser.
    - The handlers are modelled as the component defines them; that the
      page offers a click only where it renders the control is not
      enforced, so the events below are a superset of the real ones. *)

From Stdlib Require Import ZArith List Bool Ascii String Lia.
From stdpp Require Import base list.
Import ListNotations.

Open Scope Z_scope.

(** ** JavaScript values *)

Definition jsstring := list N.

(** An ASCII literal of the source as a [jsstring]. *)
Definition js (s : string) : jsstring := map N_of_ascii (list_ascii_of_string s).

(** ECMAScript WhiteSpace and LineTerminator code units, the ones
    [String.prototype.trim] strips. *)
Definition isWhiteSpace (c : N) : bool :=
  ((9 <=? c) && (c <=? 13) || (c =? 32) || (c =? 160) || (c =? 5760)
   || (8192 <=? c) && (c <=? 8202) || (c =? 8232) || (c =? 8233)
   || (c =? 8239) || (c =? 8287) || (c =? 12288) || (c =? 65279))%N.

Fixpoint trimStart (s : jsstring) : jsstring :=
  match s with
  | [] => []
  | c :: r => if isWhiteSpace c then trimStart r else s
  end.

Definition trimEnd (s : jsstring) : jsstring := rev (trimStart (rev s)).

Definition trim (s : jsstring) : jsstring := trimEnd (trimStart s).

(** Truthiness of a string: the empty string is the only falsy one. *)
Definition truthy_string (s : jsstring) : bool :=
  match s with [] => false | _ :: _ => true end.

(** What a [throw] or a rejected promise carries: an [Error] object with its
    [message], or any other value. *)
Inductive Thrown :=
| ErrorObject (message : jsstring)
| OtherValue.

(** A settled promise. *)
Inductive Settled (A : Type) :=
| Fulfilled (a : A)
| Rejected (e : Thrown).
Arguments Fulfilled {A} a.
Arguments Rejected {A} e.

(** The [Response] of [fetch]: its [ok] flag and what [response.json()]
    settles to. *)
Record Response (B : Type) := { ok : bool; json : Settled B }.
Arguments ok {B} r.
Arguments json {B} r.

(** ** Entities *)

Module GitHubUser.
Record t := {
  id : Z;
  login : jsstring;
  avatar_url : jsstring;
  html_url : jsstring;
  public_repos : Z;
  score : Z
}.
End GitHubUser.

Module GitHubRepo.
Record t := {
  id : Z;
  name : jsstring;
  full_name : jsstring;
  description : option jsstring;
  html_url : jsstring;
  stargazers_count : Z;
  language : option jsstring;
  updated_at : jsstring
}.
End GitHubRepo.

(** The parsed body of the search endpoint. *)
Record SearchData := {
  items : option (list GitHubUser.t);
  total_count : option Z
}.

(** ** The component state *)

Record State := {
  searchTerm : jsstring;
  users : list GitHubUser.t;
  selectedUser : option GitHubUser.t;
  repositories : list GitHubRepo.t;
  searchLoading : bool;
  reposLoading : bool;
  hasSearched : bool;
  error : option jsstring;
  currentPage : Z;
  totalUsers : Z;
  hasNextPage : bool;
  isDarkMode : bool
}.

(** The initial values of the [useState] calls. *)
Definition initialState : State := {|
  searchTerm := [];
  users := [];
  selectedUser := None;
  repositories := [];
  searchLoading := false;
  reposLoading := false;
  hasSearched := false;
  error := None;
  currentPage := 1;
  totalUsers := 0;
  hasNextPage := false;
  isDarkMode := false
|}.

Definition usersPerPage : Z := 5.

(** ** Setters: one per [useState] cell *)

Definition setSearchTerm (v : jsstring) (s : State) : State :=
  {| searchTerm := v; users := users s; selectedUser := selectedUser s;
     repositories := repositories s; searchLoading := searchLoading s;
     reposLoading := reposLoading s; hasSearched := hasSearched s;
     error := error s; currentPage := currentPage s;
     totalUsers := totalUsers s; hasNextPage := hasNextPage s;
     isDarkMode := isDarkMode s |}.

Definition setUsers (v : list GitHubUser.t) (s : State) : State :=
  {| searchTerm := searchTerm s; users := v; selectedUser := selectedUser s;
     repositories := repositories s; searchLoading := searchLoading s;
     reposLoading := reposLoading s; hasSearched := hasSearched s;
     error := error s; currentPage := currentPage s;
     totalUsers := totalUsers s; hasNextPage := hasNextPage s;
     isDarkMode := isDarkMode s |}.

Definition setSelectedUser (v : option GitHubUser.t) (s : State) : State :=
  {| searchTerm := searchTerm s; users := users s; selectedUser := v;
     repositories := repositories s; searchLoading := searchLoading s;
     reposLoading := reposLoading s; hasSearched := hasSearched s;
     error := error s; currentPage := currentPage s;
     totalUsers := totalUsers s; hasNextPage := hasNextPage s;
     isDarkMode := isDarkMode s |}.

Definition setRepositories (v : list GitHubRepo.t) (s : State) : State :=
  {| searchTerm := searchTerm s; users := users s; selectedUser := selectedUser s;
     repositories := v; searchLoading := searchLoading s;
     reposLoading := reposLoading s; hasSearched := hasSearched s;
     error := error s; currentPage := currentPage s;
     totalUsers := totalUsers s; hasNextPage := hasNextPage s;
     isDarkMode := isDarkMode s |}.

Definition setSearchLoading (v : bool) (s : State) : State :=
  {| searchTerm := searchTerm s; users := users s; selectedUser := selectedUser s;
     repositories := repositories s; searchLoading := v;
     reposLoading := reposLoading s; hasSearched := hasSearched s;
     error := error s; currentPage := currentPage s;
     totalUsers := totalUsers s; hasNextPage := hasNextPage s;
     isDarkMode := isDarkMode s |}.

Definition setReposLoading (v : bool) (s : State) : State :=
  {| searchTerm := searchTerm s; users := users s; selectedUser := selectedUser s;
     repositories := repositories s; searchLoading := searchLoading s;
     reposLoading := v; hasSearched := hasSearched s;
     error := error s; currentPage := currentPage s;
     totalUsers := totalUsers s; hasNextPage := hasNextPage s;
     isDarkMode := isDarkMode s |}.

Definition setHasSearched (v : bool) (s : State) : State :=
  {| searchTerm := searchTerm s; users := users s; selectedUser := selectedUser s;
     repositories := repositories s; searchLoading := searchLoading s;
     reposLoading := reposLoading s; hasSearched := v;
     error := error s; currentPage := currentPage s;
     totalUsers := totalUsers s; hasNextPage := hasNextPage s;
     isDarkMode := isDarkMode s |}.

Definition setError (v : option jsstring) (s : State) : State :=
  {| searchTerm := searchTerm s; users := users s; selectedUser := selectedUser s;
     repositories := repositories s; searchLoading := searchLoading s;
     reposLoading := reposLoading s; hasSearched := hasSearched s;
     error := v; currentPage := currentPage s;
     totalUsers := totalUsers s; hasNextPage := hasNextPage s;
     isDarkMode := isDarkMode s |}.

Definition setCurrentPage (v : Z) (s : State) : State :=
  {| searchTerm := searchTerm s; users := users s; selectedUser := selectedUser s;
     repositories := repositories s; searchLoading := searchLoading s;
     reposLoading := reposLoading s; hasSearched := hasSearched s;
     error := error s; currentPage := v;
     totalUsers := totalUsers s; hasNextPage := hasNextPage s;
     isDarkMode := isDarkMode s |}.

Definition setTotalUsers (v : Z) (s : State) : State :=
  {| searchTerm := searchTerm s; users := users s; selectedUser := selectedUser s;
     repositories := repositories s; searchLoading := searchLoading s;
     reposLoading := reposLoading s; hasSearched := hasSearched s;
     error := error s; currentPage := currentPage s;
     totalUsers := v; hasNextPage := hasNextPage s;
     isDarkMode := isDarkMode s |}.

Definition setHasNextPage (v : bool) (s : State) : State :=
  {| searchTerm := searchTerm s; users := users s; selectedUser := selectedUser s;
     repositories := repositories s; searchLoading := searchLoading s;
     reposLoading := reposLoading s; hasSearched := hasSearched s;
     error := error s; currentPage := currentPage s;
     totalUsers := totalUsers s; hasNextPage := v;
     isDarkMode := isDarkMode s |}.

Definition setIsDarkMode (v : bool) (s : State) : State :=
  {| searchTerm := searchTerm s; users := users s; selectedUser := selectedUser s;
     repositories := repositories s; searchLoading := searchLoading s;
     reposLoading := reposLoading s; hasSearched := hasSearched s;
     error := error s; currentPage := currentPage s;
     totalUsers := totalUsers s; hasNextPage := hasNextPage s;
     isDarkMode := v |}.

(** ** Statements that write the state and may throw *)

Inductive Completion (A : Type) :=
| Normal (a : A)
| Throw (e : Thrown).
Arguments Normal {A} a.
Arguments Throw {A} e.

Definition Eff (A : Type) : Type := State -> Completion A * State.

Definition ret {A} (a : A) : Eff A := fun s => (Normal a, s).

Definition bind {A B} (m : Eff A) (k : A -> Eff B) : Eff B :=
  fun s =>
    match m s with
    | (Normal a, s') => k a s'
    | (Throw e, s') => (Throw e, s')
    end.

Definition throw {A} (e : Thrown) : Eff A := fun s => (Throw e, s).

Definition call (f : State -> State) : Eff unit := fun s => (Normal tt, f s).

(** [await p]: the value of a fulfilled promise; a rejected one throws. *)
Definition await {A} (p : Settled A) : Eff A :=
  match p with
  | Fulfilled a => ret a
  | Rejected e => throw e
  end.

(** [try { body } catch (err) { handler err }] *)
Definition try_catch (body : Eff unit) (handler : Thrown -> Eff unit) : Eff unit :=
  fun s =>
    match body s with
    | (Normal a, s') => (Normal a, s')
    | (Throw e, s') => handler e s'
    end.

(** [try { body } finally { fin }]: [fin] runs on both completions and the
    completion of [body] stands unless [fin] throws itself. *)
Definition try_finally (body fin : Eff unit) : Eff unit :=
  fun s =>
    match body s with
    | (c, s') =>
        match fin s' with
        | (Normal _, s'') => (c, s'')
        | (Throw e, s'') => (Throw e, s'')
        end
    end.

Declare Scope eff_scope.
Delimit Scope eff_scope with eff.
Notation "x <- m ;; k" := (bind m (fun x => k))
  (at level 100, m at next level, right associativity) : eff_scope.
Notation "m ;; k" := (bind m (fun _ => k))
  (at level 100, right associativity) : eff_scope.

(** The state a statement leaves. *)
Definition exec {A} (m : Eff A) (s : State) : State := snd (m s).

(** ** Expressions of the source *)

(** [err instanceof Error ? err.message : 'An error occurred'] *)
Definition errorMessage (err : Thrown) : jsstring :=
  match err with
  | ErrorObject message => message
  | OtherValue => js "An error occurred"
  end.

(** [data.items || []]: an array is truthy, [undefined] is not. *)
Definition items_or_empty (data : SearchData) : list GitHubUser.t :=
  match items data with
  | Some l => l
  | None => []
  end.

(** [data.total_count || 0]: [undefined] and [0] are falsy. *)
Definition total_count_or_0 (data : SearchData) : Z :=
  match total_count data with
  | Some t => if t =? 0 then 0 else t
  | None => 0
  end.

(** [Math.ceil(t / d)] for integers [t] and [d > 0]. *)
Definition Math_ceil_div (t d : Z) : Z := - ((- t) / d).

(** [Math.min(Math.ceil(data.total_count / usersPerPage), 200)]; with
    [total_count] undefined the quotient, its ceiling and the minimum are
    all [NaN] ([None]). *)
Definition totalPages (data : SearchData) : option Z :=
  match total_count data with
  | Some t => Some (Z.min (Math_ceil_div t usersPerPage) 200)
  | None => None
  end.

(** [page < totalPages]: every comparison with [NaN] is false. *)
Definition lt_number (page : Z) (n : option Z) : bool :=
  match n with
  | Some n => page <? n
  | None => false
  end.

(** The message of the [TypeError] that reading [.length] of [undefined]
    throws (the text is the engine's; this is V8's). *)
Definition typeError_length : jsstring :=
  js "Cannot read properties of undefined (reading 'length')".

(** [data.items.length] *)
Definition items_length (data : SearchData) : Eff Z :=
  match items data with
  | Some l => ret (Z.of_nat (length l))
  | None => throw (ErrorObject typeError_length)
  end.

(** A leading (high) and a trailing (low) surrogate code unit. *)
Definition isLeadingSurrogate (c : N) : bool := ((55296 <=? c) && (c <=? 56319))%N.

Definition isTrailingSurrogate (c : N) : bool := ((56320 <=? c) && (c <=? 57343))%N.

(** Well-formed UTF-16: every leading surrogate is followed by a trailing
    one and no trailing surrogate stands alone. *)
Fixpoint isWellFormed (s : jsstring) : bool :=
  match s with
  | [] => true
  | c :: r =>
      if isLeadingSurrogate c then
        match r with
        | d :: r' => isTrailingSurrogate d && isWellFormed r'
        | [] => false
        end
      else if isTrailingSurrogate c then false
      else isWellFormed r
  end.

(** The message of the [URIError] of [encodeURIComponent] (the text is the
    engine's; this is V8's). *)
Definition uriError_malformed : jsstring := js "URI malformed".

(** [encodeURIComponent(query)] as far as the component depends on it: it
    throws a [URIError] when the string has a lone surrogate and returns
    otherwise.  The escaped text goes into the URL only; the pending request
    keeps the query itself. *)
Definition encodeURIComponent_throws (query : jsstring) : option Thrown :=
  if isWellFormed query then None else Some (ErrorObject uriError_malformed).

(** ** The two asynchronous operations *)

(** A request that [fetch] has sent and whose promise has not settled, with
    what the suspended function needs to continue. *)
Inductive Pending :=
| AwaitSearch (query : jsstring) (page : Z)
| AwaitRepos (username : jsstring).

Open Scope eff_scope.

Definition searchUsers_catch (err : Thrown) : Eff unit :=
  call (setError (Some (errorMessage err))) ;;
  call (setUsers []) ;;
  call (setTotalUsers 0) ;;
  call (setHasNextPage false).

(** The start of the [try] block of [searchUsers]: the URL is built, which
    throws when [encodeURIComponent] does, and [fetch] sends the request. *)
Definition searchUsers_fetch (query : jsstring) (page : Z) : Eff Pending :=
  match encodeURIComponent_throws query with
  | Some err => throw err
  | None => ret (AwaitSearch query page)
  end.

(** [searchUsers(query, page)] up to its [return], its [await fetch], or
    its end when the [try] block throws before [fetch]: the state it
    leaves and the request it sent, if any. *)
Definition searchUsers (query : jsstring) (page : Z) (s : State)
  : State * option Pending :=
  if negb (truthy_string (trim query)) then
    (exec (call (setUsers []) ;;
           call (setTotalUsers 0) ;;
           call (setHasNextPage false) ;;
           call (setCurrentPage 1) ;;
           call (setHasSearched false)) s,
     None)
  else
    let s1 := exec (call (setSearchLoading true) ;;
                    call (setHasSearched true) ;;
                    call (setError None)) s in
    match searchUsers_fetch query page s1 with
    | (Normal request, s2) => (s2, Some request)
    | (Throw err, s2) =>
        (exec (try_finally (try_catch (throw err) searchUsers_catch)
                 (call (setSearchLoading false))) s2,
         None)
    end.

(** The body of the [try] of [searchUsers] from the point where [fetch]
    settles. *)
Definition searchUsers_try (page : Z) (fetched : Settled (Response SearchData))
  : Eff unit :=
  response <- await fetched ;;
  (if negb (ok response)
   then throw (ErrorObject (js "Failed to search users"))
   else ret tt) ;;
  data <- await (json response) ;;
  call (setUsers (items_or_empty data)) ;;
  call (setTotalUsers (total_count_or_0 data)) ;;
  call (setCurrentPage page) ;;
  let totalPages := totalPages data in
  next <- (if lt_number page totalPages
           then (n <- items_length data ;; ret (n =? usersPerPage))
           else ret false) ;;
  call (setHasNextPage next).

(** The rest of [searchUsers] once the request has settled. *)
Definition searchUsers_resume (page : Z) (fetched : Settled (Response SearchData))
  : Eff unit :=
  try_finally
    (try_catch (searchUsers_try page fetched) searchUsers_catch)
    (call (setSearchLoading false)).

(** [fetchUserRepositories(username)] up to its [await fetch]. *)
Definition fetchUserRepositories (username : jsstring) (s : State)
  : State * option Pending :=
  (exec (call (setReposLoading true) ;;
         call (setError None)) s,
   Some (AwaitRepos username)).

Definition fetchUserRepositories_try
  (fetched : Settled (Response (list GitHubRepo.t))) : Eff unit :=
  response <- await fetched ;;
  (if negb (ok response)
   then throw (ErrorObject (js "Failed to fetch repositories"))
   else ret tt) ;;
  data <- await (json response) ;;
  call (setRepositories data).

Definition fetchUserRepositories_catch (err : Thrown) : Eff unit :=
  call (setError (Some (errorMessage err))) ;;
  call (setRepositories []).

(** The rest of [fetchUserRepositories] once the request has settled. *)
Definition fetchUserRepositories_resume
  (fetched : Settled (Response (list GitHubRepo.t))) : Eff unit :=
  try_finally
    (try_catch (fetchUserRepositories_try fetched) fetchUserRepositories_catch)
    (call (setReposLoading false)).

Close Scope eff_scope.

(** ** Event handlers *)

Definition toggleTheme (s : State) : State := setIsDarkMode (negb (isDarkMode s)) s.

Definition handleUserSelect (user : GitHubUser.t) (s : State)
  : State * option Pending :=
  fetchUserRepositories (GitHubUser.login user) (setSelectedUser (Some user) s).

Definition handleSearchChange (value : jsstring) (s : State) : State :=
  setSearchTerm value s.

Definition jsstring_eqb (a b : jsstring) : bool :=
  if decide (a = b) then true else false.

Definition handleKeyPress (key : jsstring) (s : State) : State * option Pending :=
  if jsstring_eqb key (js "Enter") then searchUsers (searchTerm s) 1 s
  else (s, None).

(** The [onSearch] callback of the search input. *)
Definition onSearch (s : State) : State * option Pending :=
  searchUsers (searchTerm s) 1 s.

Definition handleNextPage (s : State) : State * option Pending :=
  if hasNextPage s then searchUsers (searchTerm s) (currentPage s + 1) s
  else (s, None).

Definition handlePrevPage (s : State) : State * option Pending :=
  if 1 <? currentPage s then searchUsers (searchTerm s) (currentPage s - 1) s
  else (s, None).

(** ** The component with its requests in flight *)

Record World := {
  state : State;
  inflight : list Pending
}.

Definition initialWorld : World := {| state := initialState; inflight := [] |}.

(** What can happen next: the user acts on the page, or one of the pending
    requests settles (in any order). *)
Inductive Event :=
| SearchChange (value : jsstring)
| KeyPress (key : jsstring)
| ClickSearch
| ClickNext
| ClickPrev
| ClickUser (user : GitHubUser.t)
| ClickTheme
| SearchSettles (i : nat) (fetched : Settled (Response SearchData))
| ReposSettles (i : nat) (fetched : Settled (Response (list GitHubRepo.t))).

(** A handler ran: keep its state and queue the request it sent. *)
Definition after (w : World) (r : State * option Pending) : World :=
  {| state := fst r;
     inflight := match snd r with
                 | Some p => inflight w ++ [p]
                 | None => inflight w
                 end |}.

(** One event. A settle event is possible only for a pending request of its
    kind; [None] says the event cannot happen in [w]. *)
Definition step (w : World) (e : Event) : option World :=
  match e with
  | SearchChange value => Some (after w (handleSearchChange value (state w), None))
  | KeyPress key => Some (after w (handleKeyPress key (state w)))
  | ClickSearch => Some (after w (onSearch (state w)))
  | ClickNext => Some (after w (handleNextPage (state w)))
  | ClickPrev => Some (after w (handlePrevPage (state w)))
  | ClickUser user => Some (after w (handleUserSelect user (state w)))
  | ClickTheme => Some (after w (toggleTheme (state w), None))
  | SearchSettles i fetched =>
      match inflight w !! i with
      | Some (AwaitSearch _ page) =>
          Some {| state := exec (searchUsers_resume page fetched) (state w);
                  inflight := delete i (inflight w) |}
      | _ => None
      end
  | ReposSettles i fetched =>
      match inflight w !! i with
      | Some (AwaitRepos _) =>
          Some {| state := exec (fetchUserRepositories_resume fetched) (state w);
                  inflight := delete i (inflight w) |}
      | _ => None
      end
  end.

Fixpoint run (w : World) (es : list Event) : option World :=
  match es with
  | [] => Some w
  | e :: es' =>
      match step w e with
      | Some w' => run w' es'
      | None => None
      end
  end.

(** [searchUsers(query, page)] run to completion with nothing in between:
    the call, then its request (if one was sent) settling as [fetched]. *)
Definition searchUsers_complete (query : jsstring) (page : Z)
  (fetched : Settled (Response SearchData)) (s : State) : State :=
  match searchUsers query page s with
  | (s', Some _) => exec (searchUsers_resume page fetched) s'
  | (s', None) => s'
  end.

(** ** The pagination rule as the specification words it *)

Definition HARD_CAP : Z := 1000.

(** [hasNextPage = itemsReturnedThisPage == pageSize AND
    requestedPage < ceil(min(totalCount, HARD_CAP) / pageSize)] *)
Definition spec_hasNextPage
  (totalCount pageSize requestedPage itemsReturnedThisPage : Z) : bool :=
  (itemsReturnedThisPage =? pageSize)
  && (requestedPage <? Math_ceil_div (Z.min totalCount HARD_CAP) pageSize).

(** ** Outcomes of a request *)

(** A response with a success status whose body parses to [data]. *)
Definition success {B} (data : B) : Settled (Response B) :=
  Fulfilled {| ok := true; json := Fulfilled data |}.

(** The network call failed: [fetch] rejected, the status is not a success
    one, or the body does not parse.  [Some err] is what the [try] block
    throws then. *)
Definition call_failure {B} (what : string) (fetched : Settled (Response B))
  : option Thrown :=
  match fetched with
  | Rejected e => Some e
  | Fulfilled response =>
      if negb (ok response) then Some (ErrorObject (js what))
      else match json response with
           | Rejected e => Some e
           | Fulfilled _ => None
           end
  end.

(** ** Sample data *)

Module Sample.
Definition user (n : Z) (name : string) : GitHubUser.t :=
  {| GitHubUser.id := n; GitHubUser.login := js name;
     GitHubUser.avatar_url := js "https://avatars.githubusercontent.com/u/1";
     GitHubUser.html_url := js "https://github.com/" ++ js name;
     GitHubUser.public_repos := 8; GitHubUser.score := 1 |}.

Definition repo (n : Z) (owner name : string) : GitHubRepo.t :=
  {| GitHubRepo.id := n; GitHubRepo.name := js name;
     GitHubRepo.full_name := js owner ++ js "/" ++ js name;
     GitHubRepo.description := None;
     GitHubRepo.html_url := js "https://github.com/" ++ js owner ++ js "/" ++ js name;
     GitHubRepo.stargazers_count := 3;
     GitHubRepo.language := Some (js "TypeScript");
     GitHubRepo.updated_at := js "2024-01-01T00:00:00Z" |}.

Definition alice : GitHubUser.t := user 1 "alice".
Definition bob : GitHubUser.t := user 2 "bob".
Definition alice_repos : list GitHubRepo.t := [repo 11 "alice" "dotfiles"].
Definition bob_repos : list GitHubRepo.t := [repo 21 "bob" "blog"; repo 22 "bob" "notes"].

(** The search body that lists alice and bob. *)
Definition two_users : SearchData :=
  {| items := Some [alice; bob]; total_count := Some 2 |}.

(** A response with an error status; its body is a JSON object with
    neither [items] nor [total_count]. *)
Definition not_found : Settled (Response SearchData) :=
  Fulfilled {| ok := false;
               json := Fulfilled {| items := None; total_count := None |} |}.

(** Typing "a", searching, and receiving alice and bob. *)
Definition searched : list Event :=
  [SearchChange (js "a"); ClickSearch; SearchSettles 0 (success two_users)].
End Sample.

(** ** What the component renders

    The conditions of the JSX of [Welcome], one per conditional element.
    The child components are imported from elsewhere; only whether each is
    rendered, and with which props, is modelled. *)

(** Truthiness of the [error] cell ([string | null]). *)
Definition truthy_error (e : option jsstring) : bool :=
  match e with
  | Some message => truthy_string message
  | None => false
  end.

(** [{searchLoading && <LoadingSkeletons type='search' />}] *)
Definition showSearchSkeleton (s : State) : bool := searchLoading s.

(** [{error && <ErrorMessage message={error} />}] *)
Definition showErrorMessage (s : State) : bool := truthy_error (error s).

(** [{searchTerm.trim() && users.length === 0 && !searchLoading && !error
      && hasSearched && <NoResults type='users' />}] *)
Definition showNoUsers (s : State) : bool :=
  truthy_string (trim (searchTerm s))
  && (Z.of_nat (length (users s)) =? 0)
  && negb (searchLoading s)
  && negb (truthy_error (error s))
  && hasSearched s.

(** [{users.length > 0 && ...}]: the heading, the range, the user cards and
    the pagination controls. *)
Definition showFoundUsers (s : State) : bool :=
  0 <? Z.of_nat (length (users s)).

(** [(currentPage - 1) * usersPerPage + 1] *)
Definition rangeStart (s : State) : Z := (currentPage s - 1) * usersPerPage + 1.

(** [Math.min(currentPage * usersPerPage, totalUsers)] *)
Definition rangeEnd (s : State) : Z :=
  Z.min (currentPage s * usersPerPage) (totalUsers s).

(** [{selectedUser && ...}]: the props of [UserProfile], the selected user and
    [repositories.length]. *)
Definition showUserProfile (s : State) : option (GitHubUser.t * Z) :=
  match selectedUser s with
  | Some user => Some (user, Z.of_nat (length (repositories s)))
  | None => None
  end.

Definition hasSelection (s : State) : bool :=
  match selectedUser s with Some _ => true | None => false end.

(** [{reposLoading && <LoadingSkeletons type='repositories' />}], inside the
    panel of the selected user. *)
Definition showReposSkeleton (s : State) : bool :=
  hasSelection s && reposLoading s.

(** [{repositories.length === 0 && !reposLoading && <NoResults
      type='repositories' />}] *)
Definition showNoRepositories (s : State) : bool :=
  hasSelection s
  && (Z.of_nat (length (repositories s)) =? 0)
  && negb (reposLoading s).

(** [{!reposLoading && repositories.length > 0 && ...}]: the grid of
    repository cards. *)
Definition showRepositoryGrid (s : State) : bool :=
  hasSelection s
  && negb (reposLoading s)
  && (0 <? Z.of_nat (length (repositories s))).

(** ** The theme and the browser

    What the two [useEffect] hooks touch outside the component: the item
    ['github-explorer-theme'] of [localStorage] ([None] when it was never
    set), whether the document element carries the class [dark], and the
    answer of [matchMedia('(prefers-color-scheme: dark)')]. *)

Record Browser := {
  storedTheme : option jsstring;
  darkClass : bool;
  prefersDark : bool
}.

(** The first effect: the value it passes to [setIsDarkMode].  A stored
    item that is the empty string is falsy, like a missing one. *)
Definition initialTheme (b : Browser) : bool :=
  match storedTheme b with
  | Some savedTheme =>
      if truthy_string savedTheme
      then jsstring_eqb savedTheme (js "dark")
      else prefersDark b
  | None => prefersDark b
  end.

(** The second effect, run with [isDarkMode] being [dark]. *)
Definition persistTheme (dark : bool) (b : Browser) : Browser :=
  {| storedTheme := Some (if dark then js "dark" else js "light");
     darkClass := if dark then true else false;
     prefersDark := prefersDark b |}.

(** Mounting the component.  After the first render (with the initial
    state) both effects run in the order of their declaration: the first
    reads the stored item and schedules [setIsDarkMode], the second still
    sees the [isDarkMode] of the first render.  The scheduled update then
    renders again, and the second effect runs again when [isDarkMode]
    changed.  (Each effect is taken to run once per commit.) *)
Definition mount (b : Browser) : State * Browser :=
  let s0 := initialState in
  let dark := initialTheme b in
  let b1 := persistTheme (isDarkMode s0) b in
  let s1 := setIsDarkMode dark s0 in
  (s1,
   if Bool.eqb (isDarkMode s1) (isDarkMode s0) then b1
   else persistTheme (isDarkMode s1) b1).

(** A click on the theme switcher: [toggleTheme], then the render it causes
    and the second effect, whose dependency changed. *)
Definition clickTheme (sb : State * Browser) : State * Browser :=
  let s' := toggleTheme (fst sb) in
  (s', persistTheme (isDarkMode s') (snd sb)).

(** The page is closed and opened again later, when the system preference
    may be another one: the browser keeps the stored item. *)
Definition reopen (system : bool) (b : Browser) : State * Browser :=
  mount {| storedTheme := storedTheme b; darkClass := false;
           prefersDark := system |}.

(** The stored item and the document class say what [isDarkMode] says. *)
Definition theme_in_sync (sb : State * Browser) : Prop :=
  storedTheme (snd sb)
  = Some (if isDarkMode (fst sb) then js "dark" else js "light")
  /\ darkClass (snd sb) = isDarkMode (fst sb).

(** ** Invariants of the runs *)

Definition is_search (p : Pending) : bool :=
  match p with AwaitSearch _ _ => true | AwaitRepos _ => false end.

Definition is_repos (p : Pending) : bool :=
  match p with AwaitSearch _ _ => false | AwaitRepos _ => true end.

(** The page a pending search asked for is one GitHub serves. *)
Definition page_in_range (p : Pending) : Prop :=
  match p with
  | AwaitSearch _ page => 1 <= page <= 200
  | AwaitRepos _ => True
  end.

Definition paging_invariant (w : World) : Prop :=
  1 <= currentPage (state w) <= 200
  /\ (hasNextPage (state w) = true ->
      length (users (state w)) = 5%nat
      /\ currentPage (state w) * usersPerPage < totalUsers (state w)
      /\ currentPage (state w) < 200)
  /\ Forall page_in_range (inflight w).

Definition loading_invariant (w : World) : Prop :=
  (searchLoading (state w) = true -> existsb is_search (inflight w) = true)
  /\ (reposLoading (state w) = true -> existsb is_repos (inflight w) = true).

(** How many of three elements are rendered. *)
Definition shown (a b c : bool) : nat := Nat.b2n a + Nat.b2n b + Nat.b2n c.

(** * Properties *)

Ltac eff_unfold :=
  cbv [exec searchUsers_complete searchUsers searchUsers_resume searchUsers_try
       searchUsers_catch fetchUserRepositories fetchUserRepositories_resume
       fetchUserRepositories_try fetchUserRepositories_catch handleUserSelect
       try_finally try_catch bind call ret throw await items_length success
       call_failure ok json fst snd].

(** Two states with the same twelve cells are the same state. *)
Lemma State_ext (s1 s2 : State) :
  searchTerm s1 = searchTerm s2 ->
  users s1 = users s2 ->
  selectedUser s1 = selectedUser s2 ->
  repositories s1 = repositories s2 ->
  searchLoading s1 = searchLoading s2 ->
  reposLoading s1 = reposLoading s2 ->
  hasSearched s1 = hasSearched s2 ->
  error s1 = error s2 ->
  currentPage s1 = currentPage s2 ->
  totalUsers s1 = totalUsers s2 ->
  hasNextPage s1 = hasNextPage s2 ->
  isDarkMode s1 = isDarkMode s2 ->
  s1 = s2.
Proof. destruct s1, s2; cbn; intros; subst; reflexivity. Qed.

(** ** The three ways a call of [searchUsers] goes *)

(** A query that is not blank and is well-formed UTF-16: the search is
    marked as started and the request is sent. *)
Lemma searchUsers_sends (query : jsstring) (page : Z) (s : State) :
  trim query <> [] ->
  isWellFormed query = true ->
  searchUsers query page s
  = (setError None (setHasSearched true (setSearchLoading true s)),
     Some (AwaitSearch query page)).
Proof.
  intros Hq Hwf. unfold searchUsers, searchUsers_fetch, encodeURIComponent_throws.
  destruct (trim query); [ congruence | ]. now rewrite Hwf.
Qed.

(** A query that is not blank and has a lone surrogate: nothing is sent, and
    the call ends in the state a request rejected at once with the
    [URIError] would leave. *)
Lemma searchUsers_malformed (query : jsstring) (page : Z) (s : State) :
  trim query <> [] ->
  isWellFormed query = false ->
  searchUsers query page s
  = (exec (searchUsers_resume page (Rejected (ErrorObject uriError_malformed)))
       (setError None (setHasSearched true (setSearchLoading true s))),
     None).
Proof.
  intros Hq Hwf. unfold searchUsers, searchUsers_fetch, encodeURIComponent_throws.
  destruct (trim query); [ congruence | ]. now rewrite Hwf.
Qed.

(** ** Arithmetic of the page count *)

(** [Math_ceil_div t d] is the least integer that is at least [t / d]. *)
Lemma Math_ceil_div_le (t d n : Z) :
  0 < d -> Math_ceil_div t d <= n <-> t <= n * d.
Proof.
  intros Hd. unfold Math_ceil_div.
  pose proof (Z.div_mod (- t) d ltac:(lia)) as E.
  pose proof (Z.mod_pos_bound (- t) d Hd) as B.
  split; intros H; nia.
Qed.

(** Capping the page count at 200 is capping the total at 1000. *)
Lemma totalPages_cap (t : Z) :
  Z.min (Math_ceil_div t usersPerPage) 200
  = Math_ceil_div (Z.min t HARD_CAP) usersPerPage.
Proof.
  pose proof (Math_ceil_div_le t usersPerPage 200 eq_refl) as H200.
  pose proof (Math_ceil_div_le t usersPerPage 199 eq_refl) as H199.
  pose proof (Math_ceil_div_le 1000 usersPerPage 200 eq_refl) as Hc.
  pose proof (Math_ceil_div_le 1000 usersPerPage 199 eq_refl) as Hc'.
  unfold usersPerPage, HARD_CAP in *.
  destruct (Z.le_gt_cases t 1000).
  - rewrite (Z.min_l t) by lia. lia.
  - rewrite (Z.min_r t) by lia. lia.
Qed.

(** ** Pagination *)

(** C4: after a successful search response with [l] items and a non-negative
    [total_count] of [t], [hasNextPage] is the specification's
    [length l == pageSize AND page < ceil(min(t, 1000) / 5)]; and the page
    bound the code computes, [min(ceil(t / 5), 200)], is the specification's
    [ceil(min(t, 1000) / 5)]. *)
Theorem C4_hasNextPage_is_spec_formula
  (s : State) (page t : Z) (l : list GitHubUser.t) :
  0 <= t ->
  let data := {| items := Some l; total_count := Some t |} in
  hasNextPage (exec (searchUsers_resume page (success data)) s)
  = spec_hasNextPage t usersPerPage page (Z.of_nat (length l))
  /\ totalPages data = Some (Math_ceil_div (Z.min t HARD_CAP) usersPerPage).
Proof.
  intros _ data. subst data. split.
  - eff_unfold. cbv [totalPages lt_number items total_count negb].
    unfold spec_hasNextPage. rewrite <- totalPages_cap.
    destruct (page <? _); cbn; [ now rewrite andb_true_r | now rewrite andb_false_r ].
  - unfold totalPages; cbn. now rewrite totalPages_cap.
Qed.

Lemma C4_witness :
  0 <= 1000
  /\ hasNextPage (exec (searchUsers_resume 3
       (success {| items := Some (repeat Sample.alice 5); total_count := Some 1000 |}))
       initialState) = true.
Proof.
  split; [ lia | ].
  exact (proj1 (C4_hasNextPage_is_spec_formula initialState 3 1000
                  (repeat Sample.alice 5) ltac:(lia))).
Defined.

(** C5: after a successful search response that returned fewer items than
    the page size, [hasNextPage] is false whatever [total_count] says (also
    when it is absent). *)
Theorem C5_short_page_has_no_next
  (s : State) (page : Z) (data : SearchData) :
  Z.of_nat (length (items_or_empty data)) < usersPerPage ->
  hasNextPage (exec (searchUsers_resume page (success data)) s) = false.
Proof.
  intros Hshort. destruct data as [[l|] tc]; cbn in Hshort.
  - eff_unfold. cbv [items negb].
    destruct (lt_number page _); cbn; [ | reflexivity ].
    apply Z.eqb_neq. unfold usersPerPage in *. lia.
  - eff_unfold. cbv [items negb]. now destruct (lt_number page _).
Qed.

Lemma C5_witness :
  Z.of_nat (length (items_or_empty
                      {| items := Some [Sample.alice]; total_count := Some 1000 |}))
  < usersPerPage
  /\ hasNextPage (exec (searchUsers_resume 1
       (success {| items := Some [Sample.alice]; total_count := Some 1000 |}))
       initialState) = false.
Proof.
  split; [ reflexivity | ].
  apply (C5_short_page_has_no_next initialState 1
           {| items := Some [Sample.alice]; total_count := Some 1000 |}).
  reflexivity.
Defined.

(** ** Failures *)

(** A failed network call makes the [try] block of [searchUsers] throw
    before it has written anything. *)
Lemma searchUsers_try_call_failure
  (page : Z) (fetched : Settled (Response SearchData)) (s : State) (err : Thrown) :
  call_failure "Failed to search users" fetched = Some err ->
  searchUsers_try page fetched s = (Throw err, s).
Proof.
  destruct fetched as [[[] [data|e]]|e]; cbn; intros H; inversion H; subst;
    reflexivity.
Qed.

(** Whatever makes the [try] block throw, the [catch] and the [finally] of
    [searchUsers] then run on the state the block had reached. *)
Lemma searchUsers_resume_thrown
  (page : Z) (fetched : Settled (Response SearchData)) (s s1 : State) (err : Thrown) :
  searchUsers_try page fetched s = (Throw err, s1) ->
  exec (searchUsers_resume page fetched) s
  = setSearchLoading false
      (setHasNextPage false
         (setTotalUsers 0 (setUsers [] (setError (Some (errorMessage err)) s1)))).
Proof.
  intros Htry. unfold exec, searchUsers_resume, try_finally, try_catch.
  now rewrite Htry.
Qed.

Lemma searchUsers_resume_failed
  (page : Z) (fetched : Settled (Response SearchData)) (s : State) (err : Thrown) :
  call_failure "Failed to search users" fetched = Some err ->
  exec (searchUsers_resume page fetched) s
  = setSearchLoading false
      (setHasNextPage false
         (setTotalUsers 0 (setUsers [] (setError (Some (errorMessage err)) s)))).
Proof.
  intros Hfail. apply searchUsers_resume_thrown.
  now apply searchUsers_try_call_failure.
Qed.

(** C6: for every query that is not blank, when the search request fails
    (rejected [fetch], non-success status or a body that does not parse)
    the error is set to a message, the users and the total are cleared and
    the search is no longer loading, in whatever state the failure arrives
    and so also when nothing happened in between.  The same failure state,
    with the message of the [URIError], is where the call ends when the
    query cannot be encoded and no request is sent at all. *)
Theorem C6_search_failure_state
  (s : State) (query : jsstring) (page : Z)
  (fetched : Settled (Response SearchData)) (err : Thrown) :
  trim query <> [] ->
  call_failure "Failed to search users" fetched = Some err ->
  (forall s1 : State,
     let s' := exec (searchUsers_resume page fetched) s1 in
     error s' = Some (errorMessage err) /\ users s' = []
     /\ totalUsers s' = 0 /\ searchLoading s' = false)
  /\ (let s' := searchUsers_complete query page fetched s in
      error s' = Some (if isWellFormed query then errorMessage err
                       else uriError_malformed)
      /\ users s' = [] /\ totalUsers s' = 0 /\ searchLoading s' = false)
  /\ snd (searchUsers query page s)
     = (if isWellFormed query then Some (AwaitSearch query page) else None).
Proof.
  intros Hq Hfail. split; [ | split ].
  - intros s1 s'. subst s'. now rewrite (searchUsers_resume_failed _ _ _ _ Hfail).
  - unfold searchUsers_complete.
    destruct (isWellFormed query) eqn:Hwf.
    + rewrite (searchUsers_sends _ _ _ Hq Hwf).
      now rewrite (searchUsers_resume_failed _ _ _ _ Hfail).
    + now rewrite (searchUsers_malformed _ _ _ Hq Hwf).
  - destruct (isWellFormed query) eqn:Hwf.
    + now rewrite (searchUsers_sends _ _ _ Hq Hwf).
    + now rewrite (searchUsers_malformed _ _ _ Hq Hwf).
Qed.

Lemma C6_witness :
  trim (js " octocat ") <> []
  /\ call_failure "Failed to search users" Sample.not_found
     = Some (ErrorObject (js "Failed to search users"))
  /\ (let s' := searchUsers_complete (js " octocat ") 1 Sample.not_found
                  initialState in
      error s' = Some (js "Failed to search users") /\ users s' = []
      /\ totalUsers s' = 0 /\ searchLoading s' = false).
Proof.
  assert (Hq : trim (js " octocat ") <> []) by (vm_compute; discriminate).
  split; [ exact Hq | split; [ reflexivity | ] ].
  exact (proj1 (proj2 (C6_search_failure_state initialState (js " octocat ") 1
                         Sample.not_found
                         (ErrorObject (js "Failed to search users"))
                         Hq eq_refl))).
Defined.

(** What the [catch] and [finally] of [fetchUserRepositories] leave. *)
Lemma fetchUserRepositories_resume_failed fetched (s : State) (err : Thrown) :
  call_failure "Failed to fetch repositories" fetched = Some err ->
  exec (fetchUserRepositories_resume fetched) s
  = setReposLoading false
      (setRepositories [] (setError (Some (errorMessage err)) s)).
Proof.
  destruct fetched as [[[] [data|e]]|e]; cbn; intros H; inversion H; subst;
    reflexivity.
Qed.

(** C7: when the repositories request fails, in whatever state, the error is
    set, the repositories are empty and no longer loading, and every other
    cell (the selected user, the users, the total, the current page,
    [hasNextPage], and the rest of the search state) is as it was. *)
Theorem C7_repos_failure_frame
  (s : State) (fetched : Settled (Response (list GitHubRepo.t))) (err : Thrown) :
  call_failure "Failed to fetch repositories" fetched = Some err ->
  let s' := exec (fetchUserRepositories_resume fetched) s in
  error s' = Some (errorMessage err)
  /\ repositories s' = []
  /\ reposLoading s' = false
  /\ selectedUser s' = selectedUser s
  /\ users s' = users s
  /\ totalUsers s' = totalUsers s
  /\ currentPage s' = currentPage s
  /\ hasNextPage s' = hasNextPage s
  /\ searchTerm s' = searchTerm s
  /\ searchLoading s' = searchLoading s
  /\ hasSearched s' = hasSearched s
  /\ isDarkMode s' = isDarkMode s.
Proof.
  intros Hfail s'. subst s'.
  rewrite (fetchUserRepositories_resume_failed _ _ _ Hfail).
  repeat split.
Qed.

Lemma C7_witness :
  call_failure "Failed to fetch repositories"
    (Rejected (ErrorObject (js "Failed to fetch")) : Settled (Response (list GitHubRepo.t)))
  = Some (ErrorObject (js "Failed to fetch"))
  /\ selectedUser
       (exec (fetchUserRepositories_resume (Rejected (ErrorObject (js "Failed to fetch"))))
          (setSelectedUser (Some Sample.alice) initialState))
     = Some Sample.alice.
Proof.
  split; [ reflexivity | ].
  exact (proj1 (proj2 (proj2 (proj2
    (C7_repos_failure_frame (setSelectedUser (Some Sample.alice) initialState)
       (Rejected (ErrorObject (js "Failed to fetch")))
       (ErrorObject (js "Failed to fetch")) eq_refl))))).
Defined.

(** The state a success response with its [items] leaves. *)
Lemma searchUsers_resume_success
  (page : Z) (l : list GitHubUser.t) (tc : option Z) (s : State) :
  let data := {| items := Some l; total_count := tc |} in
  exec (searchUsers_resume page (success data)) s
  = setSearchLoading false
      (setHasNextPage
         (lt_number page (totalPages data) && (Z.of_nat (length l) =? usersPerPage))
         (setCurrentPage page
            (setTotalUsers (total_count_or_0 data) (setUsers l s)))).
Proof.
  intros data. subst data. eff_unfold. cbv [items negb].
  now destruct (lt_number page _).
Qed.

(** The state a success response without [items] leaves: the failure
    state when the length of the missing array is read, else an empty
    result. *)
Lemma searchUsers_resume_no_items (page : Z) (tc : option Z) (s : State) :
  let data := {| items := None; total_count := tc |} in
  exec (searchUsers_resume page (success data)) s
  = if lt_number page (totalPages data)
    then setSearchLoading false
           (setHasNextPage false
              (setTotalUsers 0
                 (setUsers []
                    (setError (Some typeError_length)
                       (setCurrentPage page
                          (setTotalUsers (total_count_or_0 data)
                             (setUsers [] s)))))))
    else setSearchLoading false
           (setHasNextPage false
              (setCurrentPage page
                 (setTotalUsers (total_count_or_0 data) (setUsers [] s)))).
Proof.
  intros data. subst data. eff_unfold. cbv [items negb].
  now destruct (lt_number page _).
Qed.

(** ** Idempotence *)

(** C8: running [searchUsers(query, page)] to completion a second time with
    the same arguments and the same server response leaves the whole state
    as the first run left it. *)
Theorem C8_search_twice_is_once
  (s : State) (query : jsstring) (page : Z)
  (fetched : Settled (Response SearchData)) :
  searchUsers_complete query page fetched
    (searchUsers_complete query page fetched s)
  = searchUsers_complete query page fetched s.
Proof.
  unfold searchUsers_complete.
  destruct (trim query) as [|c r] eqn:Hq.
  - unfold searchUsers. rewrite Hq. cbn [truthy_string negb].
    apply State_ext; vm_compute; reflexivity.
  - assert (Hne : trim query <> []) by (rewrite Hq; discriminate).
    destruct (isWellFormed query) eqn:Hwf.
    + rewrite (searchUsers_sends _ _ s Hne Hwf).
      rewrite (searchUsers_sends _ _ _ Hne Hwf).
      destruct (call_failure "Failed to search users" fetched) as [err|] eqn:Hfail.
      * rewrite !(searchUsers_resume_failed _ _ _ _ Hfail).
        apply State_ext; vm_compute; reflexivity.
      * destruct fetched as [[[] [[[l|] tc]|e]]|e]; try discriminate.
        -- change (Fulfilled {| ok := true; json := Fulfilled ?d |})
             with (success d).
           rewrite !searchUsers_resume_success.
           apply State_ext; vm_compute; reflexivity.
        -- change (Fulfilled {| ok := true; json := Fulfilled ?d |})
             with (success d).
           rewrite !searchUsers_resume_no_items.
           destruct (lt_number page _); apply State_ext; vm_compute; reflexivity.
    + rewrite (searchUsers_malformed _ _ s Hne Hwf).
      rewrite (searchUsers_malformed _ _ _ Hne Hwf).
      rewrite !(searchUsers_resume_failed page
                  (Rejected (ErrorObject uriError_malformed)) _
                  (ErrorObject uriError_malformed) eq_refl).
      apply State_ext; vm_compute; reflexivity.
Qed.

(** ** The empty query *)

(** A search whose trimmed query is empty sends nothing and resets the
    users, the total, [hasNextPage], the page and [hasSearched]; it does not
    reach the [setError(null)] that follows the early [return]. *)
Lemma searchUsers_empty_query (s : State) (query : jsstring) (page : Z) :
  trim query = [] ->
  searchUsers query page s
  = (setHasSearched false
       (setCurrentPage 1
          (setHasNextPage false (setTotalUsers 0 (setUsers [] s)))),
     None).
Proof. intros H. unfold searchUsers. now rewrite H. Qed.

(** The user searches "a", the server answers with an error status, the user
    empties the input and searches again. *)
Definition failed_then_emptied : list Event :=
  [SearchChange (js "a"); ClickSearch; SearchSettles 0 Sample.not_found;
   SearchChange []; ClickSearch].

(** C3: on that run the second search sends no request and resets the users,
    the total and the page, but the error message of the failed search is
    still set. *)
Theorem C3_empty_query_keeps_error :
  exists w : World,
    run initialWorld failed_then_emptied = Some w
    /\ inflight w = []
    /\ users (state w) = []
    /\ totalUsers (state w) = 0
    /\ currentPage (state w) = 1
    /\ hasNextPage (state w) = false
    /\ hasSearched (state w) = false
    /\ error (state w) = Some (js "Failed to search users").
Proof. eexists. split; [ reflexivity | ]. repeat split. Qed.

(** ** Selection *)



(** C1 as stated fails: alice is selected, then bob before alice's request
    has settled; bob's repositories arrive, then alice's.  Bob is selected
    and the repositories are alice's. *)
Lemma C1_counterexample :
  exists w : World,
    run initialWorld
      (Sample.searched
       ++ [ClickUser Sample.alice; ClickUser Sample.bob;
           ReposSettles 1 (success Sample.bob_repos);
           ReposSettles 0 (success Sample.alice_repos)]) = Some w
    /\ selectedUser (state w) = Some Sample.bob
    /\ repositories (state w) = Sample.alice_repos
    /\ reposLoading (state w) = false
    /\ inflight w = [].
Proof. eexists. split; [ reflexivity | ]. repeat split. Qed.

(** C1, amended: a repositories request that settles with a success is
    applied whoever is selected then: the repositories become its data and
    [reposLoading] false, [selectedUser] is untouched.  So when [a] is
    selected and then [b], and [a]'s request settles, the repositories are
    [a]'s data under the selection [b]; the last request to settle wins. *)
Theorem C1_completion_is_applied_unfenced :
  (forall (w : World) (i : nat) (username : jsstring) (data : list GitHubRepo.t),
     inflight w !! i = Some (AwaitRepos username) ->
     exists w' : World,
       step w (ReposSettles i (success data)) = Some w'
       /\ repositories (state w') = data
       /\ reposLoading (state w') = false
       /\ selectedUser (state w') = selectedUser (state w)
       /\ inflight w' = delete i (inflight w))
  /\ (forall (w : World) (a b : GitHubUser.t) (data_a : list GitHubRepo.t),
        exists w' : World,
          run w [ClickUser a; ClickUser b;
                 ReposSettles (length (inflight w)) (success data_a)] = Some w'
          /\ selectedUser (state w') = Some b
          /\ repositories (state w') = data_a
          /\ inflight w' = inflight w ++ [AwaitRepos (GitHubUser.login b)]).
Proof.
  split.
  - intros w i username data Hi. eexists. cbn [step]. rewrite Hi.
    split; [ reflexivity | ]. repeat split.
  - intros [s l] a b data_a. eexists. cbn [run step after state inflight
      handleUserSelect fetchUserRepositories fst snd].
    rewrite <- app_assoc. cbn [app].
    rewrite list_lookup_middle by reflexivity.
    rewrite delete_middle.
    split; [ reflexivity | ]. repeat split.
Qed.

Lemma C1_witness :
  inflight {| state := setSelectedUser (Some Sample.bob) initialState;
              inflight := [AwaitRepos (GitHubUser.login Sample.alice)] |} !! 0%nat
  = Some (AwaitRepos (GitHubUser.login Sample.alice))
  /\ exists w' : World,
       step {| state := setSelectedUser (Some Sample.bob) initialState;
               inflight := [AwaitRepos (GitHubUser.login Sample.alice)] |}
         (ReposSettles 0 (success Sample.alice_repos)) = Some w'
       /\ repositories (state w') = Sample.alice_repos
       /\ reposLoading (state w') = false
       /\ selectedUser (state w') = Some Sample.bob
       /\ inflight w' = [].
Proof.
  split; [ reflexivity | ].
  exact (proj1 C1_completion_is_applied_unfenced
           {| state := setSelectedUser (Some Sample.bob) initialState;
              inflight := [AwaitRepos (GitHubUser.login Sample.alice)] |}
           0%nat (GitHubUser.login Sample.alice) Sample.alice_repos eq_refl).
Defined.

(** ** What a search leaves alone *)

Lemma searchUsers_selection_frame (query : jsstring) (page : Z) (s : State) :
  selectedUser (fst (searchUsers query page s)) = selectedUser s
  /\ repositories (fst (searchUsers query page s)) = repositories s.
Proof.
  unfold searchUsers, searchUsers_fetch, encodeURIComponent_throws.
  destruct (negb _); [ split; reflexivity | ].
  destruct (isWellFormed query); split; reflexivity.
Qed.

Lemma searchUsers_resume_selection_frame
  (page : Z) (fetched : Settled (Response SearchData)) (s : State) :
  selectedUser (exec (searchUsers_resume page fetched) s) = selectedUser s
  /\ repositories (exec (searchUsers_resume page fetched) s) = repositories s.
Proof.
  destruct fetched as [[[] [[[l|] tc]|e]]|e]; try (split; reflexivity).
  - eff_unfold. cbv [items negb]. now destruct (lt_number page _).
  - eff_unfold. cbv [items negb]. now destruct (lt_number page _).
Qed.

Lemma fetchUserRepositories_resume_selectedUser
  (fetched : Settled (Response (list GitHubRepo.t))) (s : State) :
  selectedUser (exec (fetchUserRepositories_resume fetched) s) = selectedUser s.
Proof. now destruct fetched as [[[] [data|e]]|e]. Qed.

(** An event either leaves [selectedUser] as it was or is the click on a
    user, which selects that user. *)
Lemma step_selectedUser (w w' : World) (e : Event) :
  step w e = Some w' ->
  selectedUser (state w') = selectedUser (state w)
  \/ exists user, e = ClickUser user /\ selectedUser (state w') = Some user.
Proof.
  destruct e as [value|key| | | |user| |i fetched|i fetched]; cbn [step]; intros H.
  - inversion H; now left.
  - inversion H; subst; left; cbn. unfold handleKeyPress.
    destruct (jsstring_eqb _ _); [ apply searchUsers_selection_frame | reflexivity ].
  - inversion H; subst; left; cbn. apply searchUsers_selection_frame.
  - inversion H; subst; left; cbn. unfold handleNextPage.
    destruct (hasNextPage _); [ apply searchUsers_selection_frame | reflexivity ].
  - inversion H; subst; left; cbn. unfold handlePrevPage.
    destruct (1 <? _); [ apply searchUsers_selection_frame | reflexivity ].
  - inversion H; subst; right. now exists user.
  - inversion H; now left.
  - destruct (inflight w !! i) as [[query page|username]|]; inversion H; subst.
    left. apply searchUsers_resume_selection_frame.
  - destruct (inflight w !! i) as [[query page|username]|]; inversion H; subst.
    left. apply fetchUserRepositories_resume_selectedUser.
Qed.

(** C9: along every run a selected user stays selected (never back to no
    selection); a search, from its call to its completion, success or
    failure, and so also the reset by an empty query, leaves [selectedUser]
    and the repositories as they were; and the one event that writes
    [selectedUser] is the click on a user, which writes that user. *)
Theorem C9_selection_is_never_cleared :
  (forall (es : list Event) (w w' : World),
     run w es = Some w' ->
     selectedUser (state w) <> None -> selectedUser (state w') <> None)
  /\ (forall (query : jsstring) (page : Z) (s : State),
        selectedUser (fst (searchUsers query page s)) = selectedUser s
        /\ repositories (fst (searchUsers query page s)) = repositories s)
  /\ (forall (page : Z) (fetched : Settled (Response SearchData)) (s : State),
        selectedUser (exec (searchUsers_resume page fetched) s) = selectedUser s
        /\ repositories (exec (searchUsers_resume page fetched) s) = repositories s)
  /\ (forall (w w' : World) (e : Event),
        step w e = Some w' ->
        selectedUser (state w') = selectedUser (state w)
        \/ exists user, e = ClickUser user /\ selectedUser (state w') = Some user).
Proof.
  split; [ | split; [ | split ] ].
  - induction es as [|e es IH]; intros w w' Hrun Hsel; cbn [run] in Hrun.
    + now inversion Hrun; subst.
    + destruct (step w e) as [w1|] eqn:Hstep; [ | discriminate ].
      apply (IH w1 w' Hrun).
      destruct (step_selectedUser _ _ _ Hstep) as [Heq|[user [_ Heq]]];
        rewrite Heq; [ exact Hsel | discriminate ].
  - exact searchUsers_selection_frame.
  - exact searchUsers_resume_selection_frame.
  - exact step_selectedUser.
Qed.

(** Alice is selected; the input is emptied and searched. *)
Lemma C9_witness :
  selectedUser (setSelectedUser (Some Sample.alice) initialState) <> None
  /\ exists w' : World,
       run {| state := setSelectedUser (Some Sample.alice) initialState;
              inflight := [] |}
         [SearchChange []; ClickSearch] = Some w'
       /\ selectedUser (state w') <> None.
Proof.
  split; [ discriminate | ].
  eexists. split; [ reflexivity | ].
  apply (proj1 C9_selection_is_never_cleared
           [SearchChange []; ClickSearch]
           {| state := setSelectedUser (Some Sample.alice) initialState;
              inflight := [] |}
           _ eq_refl).
  discriminate.
Defined.

(** ** A body without [items] *)

(** C10 as stated fails: the search for "a" is answered with a success
    status and the body [{"total_count": 0}].  No error is set: the
    operation ends as a success with no users. *)
Lemma C10_counterexample :
  exists w : World,
    run initialWorld
      [SearchChange (js "a"); ClickSearch;
       SearchSettles 0 (success {| items := None; total_count := Some 0 |})]
    = Some w
    /\ error (state w) = None
    /\ users (state w) = []
    /\ totalUsers (state w) = 0
    /\ hasNextPage (state w) = false
    /\ searchLoading (state w) = false.
Proof. eexists. split; [ reflexivity | ]. repeat split. Qed.

(** C10, amended: when a success response has a body without [items], the
    users are empty, [hasNextPage] and [searchLoading] are false and the
    current page is the requested one; the operation ends in the failure
    state (error set to the [TypeError]'s message, total 0) exactly when
    [page < min(ceil(total_count / 5), 200)], for then [.length] of the
    missing array is read; otherwise [&&] stops before reading it, nothing
    is thrown, the error is left as it was and the total is
    [total_count || 0]. *)
Theorem C10_missing_items (s : State) (page : Z) (tc : option Z) :
  let data := {| items := None; total_count := tc |} in
  let s' := exec (searchUsers_resume page (success data)) s in
  users s' = []
  /\ hasNextPage s' = false
  /\ searchLoading s' = false
  /\ currentPage s' = page
  /\ (if lt_number page (totalPages data)
      then error s' = Some typeError_length /\ totalUsers s' = 0
      else error s' = error s /\ totalUsers s' = total_count_or_0 data).
Proof.
  intros data s'. subst data s'. eff_unfold. cbv [items negb].
  destruct (lt_number page _); repeat split.
Qed.


(** * Further properties of the component *)

(** ** What a settled search writes *)

(** Every completion of [searchUsers] leaves [searchLoading] false and
    leaves the cells of the other lifecycle and the input alone. *)
Lemma searchUsers_resume_frame
  (page : Z) (fetched : Settled (Response SearchData)) (s : State) :
  let s' := exec (searchUsers_resume page fetched) s in
  searchLoading s' = false
  /\ selectedUser s' = selectedUser s
  /\ repositories s' = repositories s
  /\ reposLoading s' = reposLoading s
  /\ searchTerm s' = searchTerm s
  /\ hasSearched s' = hasSearched s
  /\ isDarkMode s' = isDarkMode s.
Proof.
  destruct fetched as [[[] [[[l|] tc]|e]]|e]; try (repeat split; reflexivity).
  - eff_unfold. cbv [items negb]. now destruct (lt_number page _).
  - eff_unfold. cbv [items negb]. now destruct (lt_number page _).
Qed.

Lemma fetchUserRepositories_resume_frame
  (fetched : Settled (Response (list GitHubRepo.t))) (s : State) :
  let s' := exec (fetchUserRepositories_resume fetched) s in
  reposLoading s' = false
  /\ users s' = users s
  /\ totalUsers s' = totalUsers s
  /\ currentPage s' = currentPage s
  /\ hasNextPage s' = hasNextPage s
  /\ searchLoading s' = searchLoading s
  /\ hasSearched s' = hasSearched s
  /\ searchTerm s' = searchTerm s
  /\ selectedUser s' = selectedUser s
  /\ isDarkMode s' = isDarkMode s.
Proof. now destruct fetched as [[[] [data|e]]|e]. Qed.

(** X1: the two lifecycles do not write each other's cells, whatever the
    outcome of the request. *)
Theorem X1_lifecycles_are_independent :
  (forall (page : Z) (fetched : Settled (Response SearchData)) (s : State),
     let s' := exec (searchUsers_resume page fetched) s in
     selectedUser s' = selectedUser s
     /\ repositories s' = repositories s
     /\ reposLoading s' = reposLoading s
     /\ searchTerm s' = searchTerm s
     /\ isDarkMode s' = isDarkMode s)
  /\ (forall (fetched : Settled (Response (list GitHubRepo.t))) (s : State),
        let s' := exec (fetchUserRepositories_resume fetched) s in
        users s' = users s
        /\ totalUsers s' = totalUsers s
        /\ currentPage s' = currentPage s
        /\ hasNextPage s' = hasNextPage s
        /\ searchLoading s' = searchLoading s
        /\ hasSearched s' = hasSearched s
        /\ searchTerm s' = searchTerm s
        /\ selectedUser s' = selectedUser s
        /\ isDarkMode s' = isDarkMode s).
Proof.
  split.
  - intros page fetched s.
    pose proof (searchUsers_resume_frame page fetched s) as H. cbv zeta in *.
    tauto.
  - intros fetched s.
    pose proof (fetchUserRepositories_resume_frame fetched s) as H. cbv zeta in *.
    tauto.
Qed.

(** X2: a search with a non-blank query that can be encoded, answered with
    a success status and a body with [items], replaces the users by the
    items, the total by [total_count] (0 when it is absent), and the
    current page by the requested one; no error is left and the search has
    happened. *)
Theorem X2_search_success_replaces_results
  (s : State) (query : jsstring) (page : Z)
  (l : list GitHubUser.t) (tc : option Z) :
  trim query <> [] ->
  isWellFormed query = true ->
  let s' := searchUsers_complete query page
              (success {| items := Some l; total_count := tc |}) s in
  users s' = l
  /\ totalUsers s' = match tc with Some t => t | None => 0 end
  /\ currentPage s' = page
  /\ error s' = None
  /\ searchLoading s' = false
  /\ hasSearched s' = true.
Proof.
  intros Hq Hwf s'. subst s'. unfold searchUsers_complete.
  rewrite (searchUsers_sends _ _ _ Hq Hwf), searchUsers_resume_success.
  repeat split. cbn. unfold total_count_or_0; cbn.
  destruct tc as [t|]; [ | reflexivity ].
  destruct (Z.eqb_spec t 0); congruence.
Qed.

Lemma X2_witness :
  trim (js "octocat") <> []
  /\ isWellFormed (js "octocat") = true
  /\ (let s' := searchUsers_complete (js "octocat") 1
                  (success {| items := Some [Sample.alice]; total_count := Some 1 |})
                  initialState in
      users s' = [Sample.alice]
      /\ totalUsers s' = 1
      /\ currentPage s' = 1
      /\ error s' = None
      /\ searchLoading s' = false
      /\ hasSearched s' = true).
Proof.
  assert (Hq : trim (js "octocat") <> []) by (vm_compute; discriminate).
  split; [ exact Hq | ]. split; [ reflexivity | ].
  exact (X2_search_success_replaces_results initialState (js "octocat") 1
           [Sample.alice] (Some 1) Hq eq_refl).
Defined.


(** ** The pages the component asks for *)

(** What [searchUsers] leaves of the paging cells when called: with no
    request sent, the reset of the empty query or the failure state of a
    query that cannot be encoded; with a request sent, nothing. *)
Lemma searchUsers_paging (query : jsstring) (page : Z) (s : State) :
  (snd (searchUsers query page s) = None
   /\ (currentPage (fst (searchUsers query page s)) = 1
       \/ currentPage (fst (searchUsers query page s)) = currentPage s)
   /\ hasNextPage (fst (searchUsers query page s)) = false)
  \/ (snd (searchUsers query page s) = Some (AwaitSearch query page)
      /\ currentPage (fst (searchUsers query page s)) = currentPage s
      /\ hasNextPage (fst (searchUsers query page s)) = hasNextPage s
      /\ users (fst (searchUsers query page s)) = users s
      /\ totalUsers (fst (searchUsers query page s)) = totalUsers s).
Proof.
  unfold searchUsers, searchUsers_fetch, encodeURIComponent_throws.
  destruct (negb _); [ left; repeat split; now left | ].
  destruct (isWellFormed query); [ right | left ]; repeat split. now right.
Qed.

(** A handler ran on a world that satisfies the paging invariant: it is
    kept when the handler kept it on the state and asked for a page in
    range. *)
Lemma paging_invariant_after (w : World) (r : State * option Pending) :
  Forall page_in_range (inflight w) ->
  1 <= currentPage (fst r) <= 200 ->
  (hasNextPage (fst r) = true ->
   length (users (fst r)) = 5%nat
   /\ currentPage (fst r) * usersPerPage < totalUsers (fst r)
   /\ currentPage (fst r) < 200) ->
  (forall p, snd r = Some p -> page_in_range p) ->
  paging_invariant (after w r).
Proof.
  intros Hfl Hpage Hnext Hp. unfold paging_invariant, after; cbn [state inflight].
  split; [ exact Hpage | split; [ exact Hnext | ] ].
  destruct (snd r) as [p|]; [ | exact Hfl ].
  apply Forall_app; split; [ exact Hfl | ].
  constructor; [ now apply Hp | constructor ].
Qed.

Lemma paging_invariant_searchUsers (w : World) (query : jsstring) (page : Z) :
  paging_invariant w -> 1 <= page <= 200 ->
  paging_invariant (after w (searchUsers query page (state w))).
Proof.
  intros (Hpage & Hnext & Hfl) Hp.
  destruct (searchUsers_paging query page (state w))
    as [(Hs & Hc & Hn)|(Hs & Hc & Hn & Hu & Ht)];
    apply paging_invariant_after; try exact Hfl.
  - destruct Hc as [-> | ->]; lia.
  - rewrite Hn; discriminate.
  - intros p; rewrite Hs; discriminate.
  - now rewrite Hc.
  - rewrite Hn, Hc, Hu, Ht. exact Hnext.
  - intros p; rewrite Hs; intros [= <-]. exact Hp.
Qed.

(** The paging cells after a search settled, whatever the outcome: the page
    is the old one or the requested one, and [hasNextPage] is true only
    after a full page with more results to come below the cap. *)
Lemma searchUsers_resume_paging
  (page : Z) (fetched : Settled (Response SearchData)) (s : State) :
  let s' := exec (searchUsers_resume page fetched) s in
  (currentPage s' = currentPage s \/ currentPage s' = page)
  /\ (hasNextPage s' = true ->
      currentPage s' = page
      /\ length (users s') = 5%nat
      /\ page * usersPerPage < totalUsers s'
      /\ page < 200).
Proof.
  destruct fetched as [[[] [[[l|] tc]|e]]|e];
    try (split; [ left; reflexivity | discriminate ]).
  - pose proof (searchUsers_resume_success page l tc s) as E.
    cbv zeta in E. unfold success in E. cbv zeta. rewrite E. clear E. cbn.
    split; [ now right | ].
    intros [Hlt Hlen]%andb_prop.
    apply Z.eqb_eq in Hlen. unfold usersPerPage in *.
    destruct tc as [t|]; cbn in Hlt; [ | discriminate ].
    apply Z.ltb_lt in Hlt. unfold usersPerPage in Hlt.
    pose proof (Math_ceil_div_le t 5 page eq_refl) as Hceil.
    unfold total_count_or_0; cbn.
    destruct (Z.eqb_spec t 0) as [->|_].
    + change (Math_ceil_div 0 5) with 0 in *. repeat split; lia.
    + repeat split; lia.
  - eff_unfold. cbv [items negb].
    destruct (lt_number page _); cbn; (split; [ now right | discriminate ]).
Qed.

Lemma paging_invariant_step (w w' : World) (e : Event) :
  paging_invariant w -> step w e = Some w' -> paging_invariant w'.
Proof.
  intros Hinv Hstep. pose proof Hinv as (Hpage & Hnext & Hfl).
  destruct e as [value|key| | | |user| |i fetched|i fetched]; cbn [step] in Hstep.
  - inversion Hstep; subst. now apply paging_invariant_after.
  - inversion Hstep; subst. unfold handleKeyPress.
    destruct (jsstring_eqb _ _).
    + apply paging_invariant_searchUsers; [ exact Hinv | lia ].
    + now apply paging_invariant_after.
  - inversion Hstep; subst. apply paging_invariant_searchUsers; [ exact Hinv | lia ].
  - inversion Hstep; subst. unfold handleNextPage.
    destruct (hasNextPage (state w)) eqn:Hn.
    + apply paging_invariant_searchUsers; [ exact Hinv | ].
      destruct (Hnext eq_refl) as (_ & _ & Hlt). lia.
    + apply paging_invariant_after; cbn [fst snd]; try assumption.
      * intros Htrue. rewrite Hn in Htrue. discriminate.
      * discriminate.
  - inversion Hstep; subst. unfold handlePrevPage.
    destruct (Z.ltb_spec 1 (currentPage (state w))).
    + apply paging_invariant_searchUsers; [ exact Hinv | lia ].
    + now apply paging_invariant_after.
  - inversion Hstep; subst.
    apply paging_invariant_after;
      [ exact Hfl | exact Hpage | exact Hnext | intros p [= <-]; exact I ].
  - inversion Hstep; subst. now apply paging_invariant_after.
  - destruct (inflight w !! i) as [[query page|username]|] eqn:Hi;
      inversion Hstep; subst.
    pose proof (Forall_lookup_1 _ _ _ _ Hfl Hi) as Hp. cbn in Hp.
    pose proof (searchUsers_resume_paging page fetched (state w)) as [Hc Hn].
    cbv zeta in *.
    unfold paging_invariant; cbn [state inflight].
    split; [ destruct Hc as [-> | ->]; lia | ].
    split; [ | now apply Forall_delete ].
    intros Htrue. destruct (Hn Htrue) as (-> & Hlen & Htot & Hlt). auto.
  - destruct (inflight w !! i) as [[query page|username]|] eqn:Hi;
      inversion Hstep; subst.
    pose proof (fetchUserRepositories_resume_frame fetched (state w))
      as (_ & Hu & Ht & Hc & Hn & _).
    cbv zeta in *.
    unfold paging_invariant; cbn [state inflight].
    rewrite Hu, Ht, Hc, Hn.
    split; [ exact Hpage | split; [ exact Hnext | now apply Forall_delete ] ].
Qed.

Lemma paging_invariant_run (es : list Event) (w w' : World) :
  paging_invariant w -> run w es = Some w' -> paging_invariant w'.
Proof.
  revert w. induction es as [|e es IH]; intros w Hinv Hrun; cbn [run] in Hrun.
  - now inversion Hrun; subst.
  - destruct (step w e) as [w1|] eqn:Hstep; [ | discriminate ].
    apply (IH w1); [ | exact Hrun ].
    exact (paging_invariant_step _ _ _ Hinv Hstep).
Qed.

Lemma paging_invariant_initial : paging_invariant initialWorld.
Proof.
  unfold paging_invariant; cbn. split; [ lia | ].
  split; [ discriminate | constructor ].
Qed.

(** X3: from the mounted component on, whatever the user does and however
    the requests settle, the current page and the page of every search
    request in flight lie between 1 and 200: the component never asks past
    the 1000 results GitHub serves. *)
Theorem X3_pages_stay_in_range (es : list Event) (w : World) :
  run initialWorld es = Some w ->
  1 <= currentPage (state w) <= 200
  /\ (forall (i : nat) (query : jsstring) (page : Z),
        inflight w !! i = Some (AwaitSearch query page) -> 1 <= page <= 200).
Proof.
  intros Hrun.
  destruct (paging_invariant_run es _ _ paging_invariant_initial Hrun)
    as (Hpage & _ & Hfl).
  split; [ exact Hpage | ].
  intros i query page Hi. exact (Forall_lookup_1 _ _ _ _ Hfl Hi).
Qed.

Lemma X3_witness :
  exists w : World,
    run initialWorld (Sample.searched ++ [ClickPrev; ClickNext]) = Some w
    /\ 1 <= currentPage (state w) <= 200.
Proof.
  eexists. split; [ reflexivity | ].
  exact (proj1 (X3_pages_stay_in_range
                  (Sample.searched ++ [ClickPrev; ClickNext]) _ eq_refl)).
Defined.

(** X4: from the mounted component on, whenever [hasNextPage] is true the
    users shown are a full page of five and the current page ends below
    both the total and the cap of 1000 results. *)
Theorem X4_hasNextPage_means_more (es : list Event) (w : World) :
  run initialWorld es = Some w ->
  hasNextPage (state w) = true ->
  length (users (state w)) = 5%nat
  /\ currentPage (state w) * usersPerPage
     < Z.min (totalUsers (state w)) HARD_CAP.
Proof.
  intros Hrun Hnext.
  destruct (paging_invariant_run es _ _ paging_invariant_initial Hrun)
    as (_ & Hn & _).
  destruct (Hn Hnext) as (Hlen & Htot & Hlt).
  split; [ exact Hlen | ]. unfold usersPerPage, HARD_CAP in *. lia.
Qed.

Lemma X4_witness :
  exists w : World,
    run initialWorld
      [SearchChange (js "a"); ClickSearch;
       SearchSettles 0
         (success {| items := Some (repeat Sample.alice 5);
                     total_count := Some 12 |})] = Some w
    /\ hasNextPage (state w) = true
    /\ length (users (state w)) = 5%nat
    /\ currentPage (state w) * usersPerPage
       < Z.min (totalUsers (state w)) HARD_CAP.
Proof.
  eexists. split; [ reflexivity | ]. split; [ reflexivity | ].
  exact (X4_hasNextPage_means_more
           [SearchChange (js "a"); ClickSearch;
            SearchSettles 0
              (success {| items := Some (repeat Sample.alice 5);
                          total_count := Some 12 |})]
           _ eq_refl eq_refl).
Defined.


(** ** Loading flags and requests in flight *)

(** Settling a request of one kind leaves the requests of the other kind
    in flight. *)
Lemma existsb_delete_other (f : Pending -> bool) (l : list Pending) (i : nat)
  (p : Pending) :
  l !! i = Some p -> f p = false ->
  existsb f l = true -> existsb f (delete i l) = true.
Proof.
  revert i. induction l as [|x l IH]; intros [|i] Hi Hp Hex; cbn in *;
    try discriminate.
  - inversion Hi; subst. now rewrite Hp in Hex.
  - destruct (f x); [ reflexivity | ]. cbn in *. now apply (IH i).
Qed.

Lemma loading_invariant_after (w : World) (r : State * option Pending) :
  (searchLoading (fst r) = true ->
   existsb is_search (inflight w) = true
   \/ exists p, snd r = Some p /\ is_search p = true) ->
  (reposLoading (fst r) = true ->
   existsb is_repos (inflight w) = true
   \/ exists p, snd r = Some p /\ is_repos p = true) ->
  loading_invariant (after w r).
Proof.
  intros Hs Hr. unfold loading_invariant, after; cbn [state inflight].
  split; intros Htrue.
  - destruct (Hs Htrue) as [Hex|(p & -> & Hp)].
    + destruct (snd r); [ rewrite existsb_app, Hex | ]; easy.
    + rewrite existsb_app; cbn. rewrite Hp. now rewrite orb_true_r.
  - destruct (Hr Htrue) as [Hex|(p & -> & Hp)].
    + destruct (snd r); [ rewrite existsb_app, Hex | ]; easy.
    + rewrite existsb_app; cbn. rewrite Hp. now rewrite orb_true_r.
Qed.

Lemma loading_invariant_searchUsers (w : World) (query : jsstring) (page : Z) :
  loading_invariant w ->
  loading_invariant (after w (searchUsers query page (state w))).
Proof.
  intros [Hs Hr].
  apply loading_invariant_after;
    unfold searchUsers, searchUsers_fetch, encodeURIComponent_throws;
    destruct (negb _); [ | destruct (isWellFormed query) | | destruct (isWellFormed query) ];
    cbn; intros H; eauto; discriminate.
Qed.

Lemma loading_invariant_step (w w' : World) (e : Event) :
  loading_invariant w -> step w e = Some w' -> loading_invariant w'.
Proof.
  intros Hinv Hstep. pose proof Hinv as [Hs Hr].
  destruct e as [value|key| | | |user| |i fetched|i fetched]; cbn [step] in Hstep.
  - inversion Hstep; subst. apply loading_invariant_after; cbn; auto.
  - inversion Hstep; subst. unfold handleKeyPress.
    destruct (jsstring_eqb _ _).
    + now apply loading_invariant_searchUsers.
    + apply loading_invariant_after; cbn; auto.
  - inversion Hstep; subst. now apply loading_invariant_searchUsers.
  - inversion Hstep; subst. unfold handleNextPage.
    destruct (hasNextPage (state w)).
    + now apply loading_invariant_searchUsers.
    + apply loading_invariant_after; cbn; auto.
  - inversion Hstep; subst. unfold handlePrevPage.
    destruct (1 <? currentPage (state w)).
    + now apply loading_invariant_searchUsers.
    + apply loading_invariant_after; cbn; auto.
  - inversion Hstep; subst. apply loading_invariant_after; cbn; eauto.
  - inversion Hstep; subst. apply loading_invariant_after; cbn; auto.
  - destruct (inflight w !! i) as [[query page|username]|] eqn:Hi;
      inversion Hstep; subst.
    pose proof (searchUsers_resume_frame page fetched (state w))
      as (Hfalse & _ & _ & Hrl & _).
    cbv zeta in *. unfold loading_invariant; cbn [state inflight].
    rewrite Hfalse, Hrl. split; [ discriminate | ].
    intros Htrue. apply (existsb_delete_other _ _ _ _ Hi); auto.
  - destruct (inflight w !! i) as [[query page|username]|] eqn:Hi;
      inversion Hstep; subst.
    pose proof (fetchUserRepositories_resume_frame fetched (state w))
      as (Hfalse & _ & _ & _ & _ & Hsl & _).
    cbv zeta in *. unfold loading_invariant; cbn [state inflight].
    rewrite Hfalse, Hsl. split; [ | discriminate ].
    intros Htrue. apply (existsb_delete_other _ _ _ _ Hi); auto.
Qed.

Lemma loading_invariant_run (es : list Event) (w w' : World) :
  loading_invariant w -> run w es = Some w' -> loading_invariant w'.
Proof.
  revert w. induction es as [|e es IH]; intros w Hinv Hrun; cbn [run] in Hrun.
  - now inversion Hrun; subst.
  - destruct (step w e) as [w1|] eqn:Hstep; [ | discriminate ].
    apply (IH w1); [ | exact Hrun ].
    exact (loading_invariant_step _ _ _ Hinv Hstep).
Qed.

(** X5: from the mounted component on, a loading flag is set only while a
    request of its kind is in flight: [searchLoading] needs a pending
    search, [reposLoading] a pending repositories request.  No skeleton is
    shown with nothing left to settle. *)
Theorem X5_loading_means_a_request_is_pending (es : list Event) (w : World) :
  run initialWorld es = Some w ->
  (searchLoading (state w) = true ->
   exists (i : nat) (query : jsstring) (page : Z),
     inflight w !! i = Some (AwaitSearch query page))
  /\ (reposLoading (state w) = true ->
      exists (i : nat) (username : jsstring),
        inflight w !! i = Some (AwaitRepos username)).
Proof.
  intros Hrun.
  assert (Hinit : loading_invariant initialWorld) by (split; discriminate).
  destruct (loading_invariant_run es _ _ Hinit Hrun) as [Hs Hr].
  split; intros Htrue.
  - apply Hs in Htrue. apply existsb_exists in Htrue as ([query page|username] & Hin & Hp);
      [ | discriminate ].
    apply list_elem_of_In, list_elem_of_lookup in Hin as [i Hi]. eauto.
  - apply Hr in Htrue. apply existsb_exists in Htrue as ([query page|username] & Hin & Hp);
      [ discriminate | ].
    apply list_elem_of_In, list_elem_of_lookup in Hin as [i Hi]. eauto.
Qed.

Lemma X5_witness :
  exists w : World,
    run initialWorld (Sample.searched ++ [ClickUser Sample.alice; ClickNext])
    = Some w
    /\ reposLoading (state w) = true
    /\ exists (i : nat) (username : jsstring),
         inflight w !! i = Some (AwaitRepos username).
Proof.
  eexists. split; [ reflexivity | ]. split; [ reflexivity | ].
  exact (proj2 (X5_loading_means_a_request_is_pending
                  (Sample.searched ++ [ClickUser Sample.alice; ClickNext])
                  _ eq_refl) eq_refl).
Defined.

(** ** Sending a request *)

(** X6: a handler that sends a request has cleared the error: after every
    user event that adds a request to those in flight, [error] is [null]. *)
Theorem X6_sending_clears_the_error (w w' : World) (e : Event) (p : Pending) :
  step w e = Some w' ->
  inflight w' = inflight w ++ [p] ->
  error (state w') = None.
Proof.
  assert (Hsearch : forall query page,
            snd (searchUsers query page (state w)) <> None ->
            error (fst (searchUsers query page (state w))) = None).
  { intros query page.
    unfold searchUsers, searchUsers_fetch, encodeURIComponent_throws.
    destruct (negb _); [ easy | ]. now destruct (isWellFormed query). }
  assert (Hnone : forall r, snd r = None ->
            inflight (after w r) = inflight w ++ [p] -> False).
  { intros r Hr. unfold after; cbn. rewrite Hr. intros Heq.
    apply (f_equal length) in Heq. rewrite length_app in Heq. cbn in Heq. lia. }
  assert (Hsome : forall r, inflight (after w r) = inflight w ++ [p] ->
            snd r <> None).
  { intros r Heq Hr. exact (Hnone r Hr Heq). }
  intros Hstep Hsent.
  destruct e as [value|key| | | |user| |i fetched|i fetched]; cbn [step] in Hstep.
  - inversion Hstep; subst. exfalso. eapply Hnone; [ | exact Hsent ]. reflexivity.
  - inversion Hstep; subst. apply Hsome in Hsent. cbn [after state].
    unfold handleKeyPress in *. destruct (jsstring_eqb _ _); [ auto | easy ].
  - inversion Hstep; subst. apply Hsome in Hsent. now apply Hsearch.
  - inversion Hstep; subst. apply Hsome in Hsent. cbn [after state].
    unfold handleNextPage in *. destruct (hasNextPage _); [ auto | easy ].
  - inversion Hstep; subst. apply Hsome in Hsent. cbn [after state].
    unfold handlePrevPage in *. destruct (1 <? _); [ auto | easy ].
  - inversion Hstep; subst. reflexivity.
  - inversion Hstep; subst. exfalso. eapply Hnone; [ | exact Hsent ]. reflexivity.
  - destruct (inflight w !! i) as [[query page|username]|] eqn:Hi;
      inversion Hstep; subst. cbn [inflight] in Hsent.
    apply (f_equal length) in Hsent.
    rewrite length_app, length_delete in Hsent by eauto. cbn in Hsent. lia.
  - destruct (inflight w !! i) as [[query page|username]|] eqn:Hi;
      inversion Hstep; subst. cbn [inflight] in Hsent.
    apply (f_equal length) in Hsent.
    rewrite length_app, length_delete in Hsent by eauto. cbn in Hsent. lia.
Qed.

Lemma X6_witness :
  exists w' : World,
    step {| state := setError (Some (js "Failed to fetch repositories"))
                       (setSearchTerm (js "a") initialState);
            inflight := [] |} ClickSearch = Some w'
    /\ inflight w' = [] ++ [AwaitSearch (js "a") 1]
    /\ error (state w') = None.
Proof.
  eexists. split; [ reflexivity | ]. split; [ reflexivity | ].
  exact (X6_sending_clears_the_error
           {| state := setError (Some (js "Failed to fetch repositories"))
                         (setSearchTerm (js "a") initialState);
              inflight := [] |}
           _ ClickSearch (AwaitSearch (js "a") 1) eq_refl eq_refl).
Defined.


(** ** Blank queries *)

Lemma trimStart_nil (s : jsstring) :
  trimStart s = [] <-> forallb isWhiteSpace s = true.
Proof.
  induction s as [|c r IH]; cbn; [ easy | ].
  destruct (isWhiteSpace c); cbn; [ exact IH | easy ].
Qed.

(** What [trimStart] leaves is empty or starts with a code unit that is not
    white space. *)
Lemma trimStart_head (s : jsstring) :
  match trimStart s with
  | [] => True
  | c :: _ => isWhiteSpace c = false
  end.
Proof.
  induction s as [|c r IH]; cbn; [ exact I | ].
  destruct (isWhiteSpace c) eqn:Hc; [ exact IH | exact Hc ].
Qed.

Lemma forallb_rev {A} (f : A -> bool) (l : list A) :
  forallb f (rev l) = forallb f l.
Proof.
  induction l as [|x l IH]; cbn; [ reflexivity | ].
  rewrite forallb_app, IH; cbn. rewrite andb_true_r. apply andb_comm.
Qed.

Lemma trim_nil (s : jsstring) :
  trim s = [] <-> forallb isWhiteSpace s = true.
Proof.
  unfold trim, trimEnd. split.
  - intros H. apply (f_equal (@rev N)) in H. rewrite rev_involutive in H.
    cbn in H. apply trimStart_nil in H. rewrite forallb_rev in H.
    pose proof (trimStart_head s) as Hhead.
    destruct (trimStart s) as [|c r] eqn:Hs.
    + now apply trimStart_nil.
    + cbn in H. rewrite Hhead in H. discriminate.
  - intros H. apply trimStart_nil in H. now rewrite H.
Qed.

(** X7: [searchUsers] sends a request exactly when its query has a code unit
    that is not white space and is well-formed UTF-16.  A query of spaces,
    tabs or line breaks only is handled as the empty one; a query with a
    lone surrogate makes [encodeURIComponent] throw, so nothing is sent and
    the call ends with the error set, the users and the total cleared and
    [searchLoading] false.  A request that is sent carries the query as
    given, not trimmed. *)
Theorem X7_request_iff_query_not_blank
  (query : jsstring) (page : Z) (s : State) :
  snd (searchUsers query page s)
  = (if forallb isWhiteSpace query then None
     else if isWellFormed query then Some (AwaitSearch query page)
     else None)
  /\ (forallb isWhiteSpace query = false /\ isWellFormed query = false ->
      let s' := fst (searchUsers query page s) in
      error s' = Some uriError_malformed /\ users s' = []
      /\ totalUsers s' = 0 /\ hasNextPage s' = false
      /\ searchLoading s' = false /\ hasSearched s' = true).
Proof.
  assert (Hblank : forallb isWhiteSpace query = false -> trim query <> []).
  { intros Hb Ht. apply trim_nil in Ht. congruence. }
  split.
  - destruct (forallb isWhiteSpace query) eqn:Hb.
    + apply trim_nil in Hb. unfold searchUsers. now rewrite Hb.
    + destruct (isWellFormed query) eqn:Hwf.
      * now rewrite (searchUsers_sends _ _ _ (Hblank eq_refl) Hwf).
      * now rewrite (searchUsers_malformed _ _ _ (Hblank eq_refl) Hwf).
  - intros [Hb Hwf] s'. subst s'.
    rewrite (searchUsers_malformed _ _ _ (Hblank Hb) Hwf).
    repeat split.
Qed.

(** A lone leading surrogate is such a query. *)
Lemma X7_witness :
  (forallb isWhiteSpace [55296%N] = false /\ isWellFormed [55296%N] = false)
  /\ snd (searchUsers [55296%N] 1 initialState) = None
  /\ error (fst (searchUsers [55296%N] 1 initialState)) = Some uriError_malformed.
Proof.
  split; [ split; reflexivity | ].
  split.
  - exact (proj1 (X7_request_iff_query_not_blank [55296%N] 1 initialState)).
  - exact (proj1 (proj2 (X7_request_iff_query_not_blank [55296%N] 1 initialState)
                    (conj eq_refl eq_refl))).
Defined.

(** ** What is shown after a search *)

(** With a non-blank input, the search settled and no users beside an
    error, exactly one of the three outcomes is rendered. *)
Lemma one_outcome_shown (s : State) :
  truthy_string (trim (searchTerm s)) = true ->
  searchLoading s = false ->
  hasSearched s = true ->
  (truthy_error (error s) = true -> users s = []) ->
  shown (showErrorMessage s) (showFoundUsers s) (showNoUsers s) = 1%nat.
Proof.
  intros Hq Hl Hs He. unfold showErrorMessage, showFoundUsers, showNoUsers.
  rewrite Hq, Hl, Hs.
  destruct (truthy_error (error s)).
  - now rewrite He.
  - now destruct (users s).
Qed.

(** X8: when a search for the text of the input (not blank) has run to its
    end, the search card shows no skeleton and exactly one of: the error
    message, the found users, the "no results" message.  A failure whose
    message is the empty string shows as "no results". *)
Theorem X8_one_outcome_is_shown
  (s : State) (page : Z) (fetched : Settled (Response SearchData)) :
  trim (searchTerm s) <> [] ->
  let s' := searchUsers_complete (searchTerm s) page fetched s in
  showSearchSkeleton s' = false
  /\ shown (showErrorMessage s') (showFoundUsers s') (showNoUsers s') = 1%nat.
Proof.
  intros Hq s'.
  assert (Ht : truthy_string (trim (searchTerm s)) = true)
    by (destruct (trim (searchTerm s)); [ congruence | reflexivity ]).
  assert (Hterm : searchTerm s' = searchTerm s /\ searchLoading s' = false
                  /\ hasSearched s' = true
                  /\ (truthy_error (error s') = true -> users s' = [])).
  { subst s'. unfold searchUsers_complete.
    destruct (isWellFormed (searchTerm s)) eqn:Hwf.
    - rewrite (searchUsers_sends _ _ _ Hq Hwf).
      destruct fetched as [[[] [[[l|] tc]|e]]|e];
        try (repeat split; reflexivity).
      + eff_unfold. cbv [items negb].
        destruct (lt_number page _); repeat split; try reflexivity;
          cbn; discriminate.
      + eff_unfold. cbv [items negb].
        destruct (lt_number page _); repeat split; try reflexivity;
          cbn; discriminate.
    - rewrite (searchUsers_malformed _ _ _ Hq Hwf). repeat split; reflexivity. }
  destruct Hterm as (Hsame & Hl & Hs & He).
  split; [ exact Hl | ].
  apply one_outcome_shown; try assumption. now rewrite Hsame.
Qed.

Lemma X8_witness :
  trim (searchTerm (setSearchTerm (js "a") initialState)) <> []
  /\ (let s' := searchUsers_complete (js "a") 1 Sample.not_found
                  (setSearchTerm (js "a") initialState) in
      showSearchSkeleton s' = false
      /\ shown (showErrorMessage s') (showFoundUsers s') (showNoUsers s') = 1%nat).
Proof.
  assert (Hq : trim (searchTerm (setSearchTerm (js "a") initialState)) <> [])
    by (vm_compute; discriminate).
  split; [ exact Hq | ].
  exact (X8_one_outcome_is_shown (setSearchTerm (js "a") initialState) 1
           Sample.not_found Hq).
Defined.


(** X9: when the server's answer is consistent, that is the items of page
    [page] are the [min(5, t - 5 * (page - 1))] results that remain of the
    [t] it counts, and there is at least one, the found users are shown and
    the range "start-end of total" spans as many results as there are user
    cards, and ends within the total. *)
Theorem X9_range_counts_the_users
  (s : State) (page t : Z) (l : list GitHubUser.t) :
  0 < Z.of_nat (length l) ->
  Z.of_nat (length l) = Z.min usersPerPage (t - (page - 1) * usersPerPage) ->
  let s' := exec (searchUsers_resume page
                    (success {| items := Some l; total_count := Some t |})) s in
  showFoundUsers s' = true
  /\ rangeStart s' = (page - 1) * usersPerPage + 1
  /\ rangeEnd s' - rangeStart s' + 1 = Z.of_nat (length (users s'))
  /\ rangeEnd s' <= totalUsers s'.
Proof.
  intros Hpos Hlen s'. subst s'. rewrite searchUsers_resume_success.
  unfold showFoundUsers, rangeStart, rangeEnd, total_count_or_0; cbn.
  unfold usersPerPage in *.
  destruct (Z.eqb_spec t 0) as [->|Hne].
  - lia.
  - repeat split; first [ lia | now apply Z.ltb_lt ].
Qed.

Lemma X9_witness :
  0 < Z.of_nat (length [Sample.alice; Sample.bob])
  /\ Z.of_nat (length [Sample.alice; Sample.bob])
     = Z.min usersPerPage (12 - (3 - 1) * usersPerPage)
  /\ (let s' := exec (searchUsers_resume 3
                       (success {| items := Some [Sample.alice; Sample.bob];
                                   total_count := Some 12 |})) initialState in
      showFoundUsers s' = true
      /\ rangeStart s' = 11
      /\ rangeEnd s' - rangeStart s' + 1 = 2
      /\ rangeEnd s' <= 12).
Proof.
  split; [ reflexivity | ]. split; [ reflexivity | ].
  exact (X9_range_counts_the_users initialState 3 12 [Sample.alice; Sample.bob]
           eq_refl eq_refl).
Defined.

(** ** Paging back and forth *)

(** A success response, whatever its body, makes the requested page
    current. *)
Lemma searchUsers_resume_success_currentPage
  (page : Z) (data : SearchData) (s : State) :
  currentPage (exec (searchUsers_resume page (success data)) s) = page.
Proof.
  destruct data as [[l|] tc]; eff_unfold; cbv [items negb];
    now destruct (lt_number page _).
Qed.

(** X10: with a next page and an input that is not blank and can be
    encoded, "next" asks for the page after the current one; once that
    request is answered with a success status the current page is that
    page, and "previous" asks for the page the user came from. *)
Theorem X10_previous_undoes_next (s : State) (data : SearchData) :
  hasNextPage s = true ->
  trim (searchTerm s) <> [] ->
  isWellFormed (searchTerm s) = true ->
  1 <= currentPage s ->
  snd (handleNextPage s) = Some (AwaitSearch (searchTerm s) (currentPage s + 1))
  /\ (let s' := exec (searchUsers_resume (currentPage s + 1) (success data))
                  (fst (handleNextPage s)) in
      currentPage s' = currentPage s + 1
      /\ snd (handlePrevPage s')
         = Some (AwaitSearch (searchTerm s) (currentPage s))).
Proof.
  intros Hnext Hq Hwf Hpage.
  unfold handleNextPage. rewrite Hnext.
  rewrite (searchUsers_sends _ _ _ Hq Hwf). cbn [fst snd].
  split; [ reflexivity | ].
  cbv zeta. set (s' := exec _ _).
  assert (Hc : currentPage s' = currentPage s + 1)
    by apply searchUsers_resume_success_currentPage.
  assert (Hterm : searchTerm s' = searchTerm s).
  { subst s'.
    now pose proof (searchUsers_resume_frame (currentPage s + 1) (success data)
                      (setError None (setHasSearched true (setSearchLoading true s))))
      as (_ & _ & _ & _ & -> & _). }
  split; [ exact Hc | ].
  unfold handlePrevPage. rewrite Hc.
  destruct (Z.ltb_spec 1 (currentPage s + 1)); [ | lia ].
  rewrite Hterm, (searchUsers_sends _ _ _ Hq Hwf). cbn [snd].
  do 2 f_equal. lia.
Qed.

Lemma X10_witness :
  hasNextPage (setHasNextPage true (setSearchTerm (js "a") initialState)) = true
  /\ trim (searchTerm (setHasNextPage true (setSearchTerm (js "a") initialState)))
     <> []
  /\ isWellFormed
       (searchTerm (setHasNextPage true (setSearchTerm (js "a") initialState)))
     = true
  /\ 1 <= currentPage (setHasNextPage true (setSearchTerm (js "a") initialState))
  /\ snd (handleNextPage (setHasNextPage true (setSearchTerm (js "a") initialState)))
     = Some (AwaitSearch (js "a") 2).
Proof.
  assert (Hq : trim (searchTerm (setHasNextPage true
                                   (setSearchTerm (js "a") initialState))) <> [])
    by (vm_compute; discriminate).
  split; [ reflexivity | ]. split; [ exact Hq | ]. split; [ reflexivity | ].
  split; [ cbn; lia | ].
  exact (proj1 (X10_previous_undoes_next
                  (setHasNextPage true (setSearchTerm (js "a") initialState))
                  Sample.two_users eq_refl Hq eq_refl ltac:(cbn; lia))).
Defined.

(** ** The panel of the selected user *)

(** X11: right after a user is selected the panel shows that user with the
    number of the repositories that were there before, and the skeleton in
    place of the list.  Once the request has settled (nothing in between)
    the skeleton is gone and exactly one of the "no repositories" message
    and the grid is shown; after a failed request it is the message. *)
Theorem X11_panel_of_the_selected_user
  (s : State) (user : GitHubUser.t)
  (fetched : Settled (Response (list GitHubRepo.t))) :
  let s1 := fst (handleUserSelect user s) in
  let s2 := exec (fetchUserRepositories_resume fetched) s1 in
  showUserProfile s1 = Some (user, Z.of_nat (length (repositories s)))
  /\ showReposSkeleton s1 = true
  /\ showNoRepositories s1 = false
  /\ showRepositoryGrid s1 = false
  /\ showUserProfile s2 = Some (user, Z.of_nat (length (repositories s2)))
  /\ showReposSkeleton s2 = false
  /\ xorb (showNoRepositories s2) (showRepositoryGrid s2) = true
  /\ (call_failure "Failed to fetch repositories" fetched <> None ->
      showNoRepositories s2 = true).
Proof.
  intros s1 s2. subst s1 s2.
  unfold showUserProfile, showReposSkeleton, showNoRepositories,
    showRepositoryGrid, hasSelection.
  split; [ reflexivity | ].
  split; [ reflexivity | ].
  split; [ cbn; now rewrite andb_false_r | ].
  split; [ reflexivity | ].
  destruct fetched as [[[] [data|e]]|e]; cbn;
    try (repeat split; reflexivity).
  repeat split; try congruence. now destruct data.
Qed.

Lemma X11_witness :
  call_failure "Failed to fetch repositories"
    (Rejected OtherValue : Settled (Response (list GitHubRepo.t))) <> None
  /\ showNoRepositories
       (exec (fetchUserRepositories_resume (Rejected OtherValue))
          (fst (handleUserSelect Sample.alice initialState))) = true.
Proof.
  assert (H : call_failure "Failed to fetch repositories"
                (Rejected OtherValue : Settled (Response (list GitHubRepo.t)))
              <> None) by discriminate.
  split; [ exact H | ].
  exact (proj2 (proj2 (proj2 (proj2 (proj2 (proj2 (proj2
    (X11_panel_of_the_selected_user initialState Sample.alice
       (Rejected OtherValue))))))))
    H).
Defined.


(** ** The theme *)

Lemma theme_in_sync_persist (s : State) (b : Browser) :
  theme_in_sync (s, persistTheme (isDarkMode s) b).
Proof. unfold theme_in_sync; cbn. now destruct (isDarkMode s). Qed.

Lemma theme_in_sync_mount (b : Browser) : theme_in_sync (mount b).
Proof.
  unfold mount, theme_in_sync; cbn. now destruct (initialTheme b).
Qed.

Lemma theme_in_sync_clickTheme (sb : State * Browser) :
  theme_in_sync (clickTheme sb).
Proof. unfold clickTheme. apply theme_in_sync_persist. Qed.

Lemma theme_in_sync_session (b : Browser) (n : nat) :
  theme_in_sync (Nat.iter n clickTheme (mount b)).
Proof.
  destruct n as [|n]; cbn [Nat.iter nat_rect].
  - apply theme_in_sync_mount.
  - apply theme_in_sync_clickTheme.
Qed.

(** What the first effect reads back from a browser in sync. *)
Lemma initialTheme_in_sync (s : State) (b : Browser) (system : bool) :
  theme_in_sync (s, b) ->
  initialTheme {| storedTheme := storedTheme b; darkClass := false;
                  prefersDark := system |} = isDarkMode s.
Proof.
  intros [Hstored _]. cbn in Hstored. unfold initialTheme; cbn.
  rewrite Hstored. now destruct (isDarkMode s).
Qed.

(** X12: once the component is mounted, and after any number of clicks on
    the theme switcher, the stored item is 'dark' or 'light' as
    [isDarkMode] says and the document carries the class [dark] exactly in
    dark mode, whatever the browser held before. *)
Theorem X12_theme_is_persisted (b : Browser) (n : nat) :
  let sb := Nat.iter n clickTheme (mount b) in
  storedTheme (snd sb)
  = Some (if isDarkMode (fst sb) then js "dark" else js "light")
  /\ darkClass (snd sb) = isDarkMode (fst sb).
Proof. exact (theme_in_sync_session b n). Qed.

(** X13: the theme survives a reload: opening the page again with the
    browser as a session left it gives the [isDarkMode] the session ended
    with, whatever the system preference is then. *)
Theorem X13_theme_survives_reload (b : Browser) (n : nat) (system : bool) :
  let sb := Nat.iter n clickTheme (mount b) in
  isDarkMode (fst (reopen system (snd sb))) = isDarkMode (fst sb).
Proof.
  intros sb. unfold reopen, mount. cbn [fst isDarkMode setIsDarkMode].
  apply initialTheme_in_sync.
  destruct sb as [s b'] eqn:E. cbn [snd fst].
  rewrite <- E. apply theme_in_sync_session.
Qed.

(** X15: with the browser in sync with the state, two clicks on the theme
    switcher give back the state and the browser as they were. *)
Theorem X15_two_clicks_restore_the_theme (s : State) (b : Browser) :
  theme_in_sync (s, b) ->
  clickTheme (clickTheme (s, b)) = (s, b).
Proof.
  intros [Hstored Hclass]. cbn in Hstored, Hclass.
  unfold clickTheme, toggleTheme, persistTheme; cbn.
  rewrite negb_involutive.
  destruct s as [term us sel repos sl rl hs err cp tot hn dark].
  destruct b as [stored class system]; cbn in *. subst stored class.
  f_equal. now destruct dark.
Qed.

Lemma X15_witness :
  theme_in_sync (mount {| storedTheme := None; darkClass := false;
                          prefersDark := true |})
  /\ clickTheme (clickTheme (mount {| storedTheme := None; darkClass := false;
                                     prefersDark := true |}))
     = mount {| storedTheme := None; darkClass := false; prefersDark := true |}.
Proof.
  assert (H : theme_in_sync (mount {| storedTheme := None; darkClass := false;
                                      prefersDark := true |}))
    by (split; reflexivity).
  split; [ exact H | ].
  exact (X15_two_clicks_restore_the_theme _ _ H).
Defined.


(** ** Overlapping searches *)

(** X16: the last search response to arrive wins.  When a success response
    with [items] settles after another search request has settled, whatever
    that one's outcome and page, the state is the one the success response
    alone would have left, except for the error, which is the earlier
    completion's: results of the later arrival can stand beside the error
    of a search that failed before it. *)
Theorem X16_last_search_response_wins
  (s : State) (page1 page2 : Z) (l : list GitHubUser.t) (tc : option Z)
  (earlier : Settled (Response SearchData)) :
  let later := success {| items := Some l; total_count := tc |} in
  exec (searchUsers_resume page1 later)
    (exec (searchUsers_resume page2 earlier) s)
  = setError (error (exec (searchUsers_resume page2 earlier) s))
      (exec (searchUsers_resume page1 later) s).
Proof.
  intros later. subst later. rewrite !searchUsers_resume_success.
  destruct earlier as [[[] [[[l2|] tc2]|e]]|e]; try reflexivity.
  - eff_unfold. cbv [items negb]. now destruct (lt_number page2 _).
  - eff_unfold. cbv [items negb]. now destruct (lt_number page2 _).
Qed.
